(** * build_chromium: the provisioning scripts, embedded and verified

    Shallow embedding of [bootstrap.py] and of [gn_gen.py].

    - Python [str] values are [string]s of ASCII characters.
    - [os.environ] is a finite map from names to values.
    - Everything the scripts do to the outside world (child processes,
      printing, the archive download, [os.rename], [os.chdir]) is recorded in
      a trace of events; everything the outside world answers (exit codes,
      captured output, file existence, file contents) comes from an oracle
      [World] that may depend on the history so far.
    - Python exceptions are values of [exn]; a computation returns a
      [result] together with the state it reached, so the effects performed
      before an exception are kept.
    - The platform-dependent functions of [os.path] and the interpreter
      constants ([sys.platform], [platform.machine()], [sys.executable],
      [ROOT_DIR]) are fields of a [Host]. A call of [os.path.join] with
      three components is the join of the first two joined with the third.
    - A child process always starts, and [os.rename] and [os.chdir] always
      succeed: a child fails through its exit status only. Reading a file
      and streaming the archive can fail. *)

From stdpp Require Import gmap strings list.
From Stdlib Require Import Ascii String ZArith Lia.

Local Open Scope string_scope.
Local Open Scope Z_scope.

(** ** Python strings *)

Module PyStr.

(** [s.startswith(p)] *)
Definition startswith (s p : string) : bool := String.prefix p s.

(** [needle in s] *)
Fixpoint contains (needle s : string) : bool :=
  String.prefix needle s
  || match s with
     | EmptyString => false
     | String _ s' => contains needle s'
     end.

Definition is_upper (c : ascii) : bool :=
  ((65 <=? Z.of_N (N_of_ascii c)) && (Z.of_N (N_of_ascii c) <=? 90))%Z.

Definition lower_char (c : ascii) : ascii :=
  if is_upper c then ascii_of_N (N_of_ascii c + 32) else c.

(** [s.lower()] on ASCII text *)
Fixpoint lower (s : string) : string :=
  match s with
  | EmptyString => EmptyString
  | String c s' => String (lower_char c) (lower s')
  end.

(** The characters [str.strip()] removes: TAB, LF, VT, FF, CR, the four
    separators FS, GS, RS, US, and the space. *)
Definition is_space (c : ascii) : bool :=
  let n := Z.of_N (N_of_ascii c) in
  ((9 <=? n) && (n <=? 13)) || ((28 <=? n) && (n <=? 32)).

Fixpoint lstrip (s : string) : string :=
  match s with
  | EmptyString => EmptyString
  | String c s' => if is_space c then lstrip s' else s
  end.

(** Removes trailing white space: a character is dropped when it is white
    space and everything after it has been dropped. *)
Fixpoint rstrip (s : string) : string :=
  match s with
  | EmptyString => EmptyString
  | String c s' =>
      match rstrip s' with
      | EmptyString => if is_space c then EmptyString else String c EmptyString
      | r => String c r
      end
  end.

(** [s.strip()] *)
Definition strip (s : string) : string := rstrip (lstrip s).

(** [bool(s)]: the empty string is false *)
Definition truthy (s : string) : bool :=
  match s with EmptyString => false | _ => true end.

(** [bool(o)] for a value that is [None] or a string *)
Definition truthy_opt (o : option string) : bool :=
  match o with None => false | Some s => truthy s end.

(** [s[:-n]] for [n > 0] *)
Definition drop_last (n : nat) (s : string) : string :=
  String.substring 0 (String.length s - n) s.

(** [sep.join(l)] *)
Fixpoint join (sep : string) (l : list string) : string :=
  match l with
  | [] => EmptyString
  | [x] => x
  | x :: rest => x +:+ sep +:+ join sep rest
  end.

(** Iterating over a text stream: the text is cut after every line feed,
    each line keeps its line feed, a last line without one is kept. *)
Fixpoint lines_from (cur s : string) : list string :=
  match s with
  | EmptyString => if truthy cur then [cur] else []
  | String c s' =>
      if Ascii.eqb c "010"%char
      then (cur +:+ String c EmptyString) :: lines_from EmptyString s'
      else lines_from (cur +:+ String c EmptyString) s'
  end.

Definition lines (s : string) : list string := lines_from EmptyString s.

End PyStr.

(** The line feed and the double quote *)
Definition LF : string := String "010"%char EmptyString.
Definition DQ : string := String "034"%char EmptyString.

(** ** Exceptions and results *)

Inductive exn : Type :=
| ValueError (msg : string)
| KeyError (key : string)
| NameError (name : string)
| CalledProcessError (returncode : Z) (cmd : list string)
| OSError (what : string).

Inductive result (A : Type) : Type :=
| Ok (a : A)
| Raise (e : exn).
Arguments Ok {A} a.
Arguments Raise {A} e.

(** ** The host: interpreter constants and [os.path] *)

Record Host : Type := {
  sys_platform : string;
  platform_machine : string;
  sys_executable : string;
  ROOT_DIR : string;
  os_pathsep : string;
  os_path_join : string -> string -> string;
  os_path_abspath : string -> string;
  os_path_basename : string -> string
}.

Definition CHROMIUM_URL : string :=
  "https://github.com/chrohime/chromium_source_tarball/releases/download".

(** ** Platform resolver (bootstrap.py, lines 30-49) *)

Definition current_os (h : Host) : result string :=
  if PyStr.startswith (sys_platform h) "linux" then Ok "linux"
  else if PyStr.startswith (sys_platform h) "win" then Ok "win"
  else if String.eqb (sys_platform h) "darwin" then Ok "mac"
  else Raise (ValueError ("Unsupported platform: " +:+ sys_platform h)).

Definition current_cpu (h : Host) : result string :=
  let arch := PyStr.lower (platform_machine h) in
  if String.eqb arch "amd64" || String.eqb arch "x86_64" || String.eqb arch "x64"
  then Ok "x64"
  else if String.eqb arch "arm64" then Ok "arm64"
  else if PyStr.startswith arch "arm" then Ok "arm"
  else Raise (ValueError ("Unrecognized CPU architecture: " +:+ arch)).

(** ** Events, the outside world and the state *)

(** What a run does to the outside world, in order. *)
Inductive event : Type :=
| Stdout (text : string)
    (** text written to standard output, terminator included *)
| Spawn (argv : list string) (cwd : option string) (input : option string)
    (** a child process run to completion *)
| Fetch (url path : string)
    (** [urlopen(url)] streamed into [tarfile.extractall(path)] *)
| Rename (src dst : string)
| Chdir (path : string).

(** What a finished child process hands back. *)
Record proc : Type := {
  returncode : Z;
  p_stdout : string;
  p_stderr : string
}.

(** The answers of the outside world, each given the history so far. *)
Record World : Type := {
  run_process : list event -> list string -> option string -> option string -> proc;
  path_isdir : list event -> string -> bool;
  path_exists : list event -> string -> bool;
  read_text : list event -> string -> option string;
  (** number of archive members read, and whether the stream ended well *)
  archive : list event -> string -> nat * bool;
  (** [ast.literal_eval(text)[0]], projected on ['output_file'] and
      ['object_name']; any failure of the evaluation or of the two
      subscripts is the exception returned *)
  first_object : string -> result (string * string)
}.

Record state : Type := {
  environ : gmap string string;
  trace : list event
}.

(** ** The monad of the scripts: state and exceptions *)

Definition M (A : Type) : Type := state -> result A * state.

Definition ret {A} (a : A) : M A := fun s => (Ok a, s).

Definition bind {A B} (m : M A) (k : A -> M B) : M B :=
  fun s => match m s with
           | (Ok a, s') => k a s'
           | (Raise e, s') => (Raise e, s')
           end.

Definition raise {A} (e : exn) : M A := fun s => (Raise e, s).

Definition lift {A} (r : result A) : M A := fun s => (r, s).

Declare Scope py_scope.
Delimit Scope py_scope with py.
Notation "x <- m ;; k" := (bind m (fun x => k))
  (at level 100, m at next level, right associativity) : py_scope.
Notation "m ;;; k" := (bind m (fun _ => k))
  (at level 100, right associativity) : py_scope.
Local Open Scope py_scope.

Definition emit (e : event) : M unit :=
  fun s => (Ok tt, {| environ := environ s; trace := trace s ++ [e] |}).

Definition when (b : bool) (m : M unit) : M unit := if b then m else ret tt.

(** [for x in l: body(x)] *)
Fixpoint for_each {A} (l : list A) (body : A -> M unit) : M unit :=
  match l with
  | [] => ret tt
  | x :: rest => body x ;;; for_each rest body
  end.

(** [print(text)] *)
Definition print (text : string) : M unit := emit (Stdout (text +:+ LF)).

(** [print(text, end='', flush=True)] *)
Definition print_noend (text : string) : M unit := emit (Stdout text).

(** [os.environ[k] = v] *)
Definition setenv (k v : string) : M unit :=
  fun s => (Ok tt, {| environ := <[k := v]> (environ s); trace := trace s |}).

(** [os.environ[k]] *)
Definition getenv (k : string) : M string :=
  fun s => match environ s !! k with
           | Some v => (Ok v, s)
           | None => (Raise (KeyError k), s)
           end.

(** ** Name resolution inside a function body *)

Inductive pyval : Type :=
| PyString (s : string)
| PyObject (repr : string).

(** [f'{v}'] *)
Definition format (v : pyval) : string :=
  match v with PyString s => s | PyObject r => r end.

Section Program.

Context (h : Host) (w : World).

(** The names bound at module level in bootstrap.py: its imports, its two
    constants and its functions. *)
Definition module_globals : gmap string pyval :=
  list_to_map
    [ ("argparse", PyObject "<module 'argparse'>");
      ("ast", PyObject "<module 'ast'>");
      ("os", PyObject "<module 'os'>");
      ("platform", PyObject "<module 'platform'>");
      ("re", PyObject "<module 're'>");
      ("subprocess", PyObject "<module 'subprocess'>");
      ("sys", PyObject "<module 'sys'>");
      ("tarfile", PyObject "<module 'tarfile'>");
      ("urllib", PyObject "<module 'urllib'>");
      ("ROOT_DIR", PyString (ROOT_DIR h));
      ("CHROMIUM_URL", PyString CHROMIUM_URL);
      ("add_depot_tools_to_path", PyObject "<function add_depot_tools_to_path>");
      ("current_os", PyObject "<function current_os>");
      ("current_cpu", PyObject "<function current_cpu>");
      ("download_and_extract", PyObject "<function download_and_extract>");
      ("cipd", PyObject "<function cipd>");
      ("read_var_from_deps", PyObject "<function read_var_from_deps>");
      ("search_pattern", PyObject "<function search_pattern>");
      ("download_from_google_storage",
         PyObject "<function download_from_google_storage>");
      ("download_gcs_dep", PyObject "<function download_gcs_dep>");
      ("download_nodejs", PyObject "<function download_nodejs>");
      ("main", PyObject "<function main>") ].

(** Loading a name in a function body: the function's locals, then the
    module's globals. (The built-in namespace comes last in Python; none
    of the names looked up through [load_name] here is a built-in.) *)
Definition load_name (locals : gmap string pyval) (name : string) : M pyval :=
  match locals !! name with
  | Some v => ret v
  | None =>
      match module_globals !! name with
      | Some v => ret v
      | None => raise (NameError name)
      end
  end.

(** ** Child processes *)

(** A child process run to completion, its pipes captured. *)
Definition run (argv : list string) (cwd input : option string) : M proc :=
  fun s =>
    (Ok (run_process w (trace s) argv cwd input),
     {| environ := environ s; trace := trace s ++ [Spawn argv cwd input] |}).

(** [subprocess.check_call(argv)] *)
Definition check_call (argv : list string) : M unit :=
  p <- run argv None None ;;
  if returncode p =? 0 then ret tt
  else raise (CalledProcessError (returncode p) argv).

(** [os.path.isdir(path)] and [os.path.exists(path)] *)
Definition isdir (path : string) : M bool :=
  fun s => (Ok (path_isdir w (trace s) path), s).

Definition exists_ (path : string) : M bool :=
  fun s => (Ok (path_exists w (trace s) path), s).

(** ** add_depot_tools_to_path (lines 16-28) *)

Definition add_depot_tools_to_path (src_dir : string) : M unit :=
  setenv "DEPOT_TOOLS_UPDATE" "0" ;;;
  setenv "CHROMIUM_BUILDTOOLS_PATH"
    (os_path_join h (os_path_abspath h src_dir) "buildtools") ;;;
  old_path <- getenv "PATH" ;;
  setenv "PATH"
    (PyStr.join (os_pathsep h)
       [ os_path_join h (os_path_join h src_dir "third_party") "ninja";
         os_path_join h (os_path_join h (ROOT_DIR h) "vendor") "depot_tools";
         old_path ]) ;;;
  setenv "DEPOT_TOOLS_WIN_TOOLCHAIN" "1" ;;;
  setenv "DEPOT_TOOLS_WIN_TOOLCHAIN_BASE_URL"
    "https://dev-cdn.electronjs.org/windows-toolchains/_" ;;;
  setenv "GYP_MSVS_HASH_27370823e7" "28622d16b1" ;;;
  setenv "GYP_MSVS_HASH_7393122652" "3ba76c5c20".

(** ** download_and_extract (lines 51-61) *)

(** One dot is printed for every 5000th member read from the stream. *)
Definition download_and_extract (url extract_path : string) : M unit :=
  fun s =>
    let '(members, ok) := archive w (trace s) url in
    (emit (Fetch url extract_path) ;;;
     for_each (replicate (members / 5000)%nat tt) (fun _ => print_noend ".") ;;;
     if ok then ret tt else raise (OSError url)) s.

(** ** cipd (lines 63-75) *)

Definition cipd (root package version : string) : M unit :=
  os <- lift (current_os h) ;;
  let cipd_bin := if String.eqb os "win" then "cipd.bat" else "cipd" in
  let args := [ cipd_bin; "ensure"; "-root"; root; "-ensure-file"; "-" ] in
  p <- run args None (Some (package +:+ " " +:+ version)) ;;
  if negb (returncode p =? 0) then
    print (p_stdout p) ;;;
    print (p_stderr p) ;;;
    raise (ValueError "cipd failed.")
  else ret tt.

(** ** read_var_from_deps (lines 77-87) *)

Definition read_var_from_deps (var deps_file : string) : M string :=
  p <- run [ sys_executable h;
             "third_party/depot_tools/gclient.py"; "getdep";
             "--deps-file"; deps_file;
             "-r"; var ] None None ;;
  if negb (returncode p =? 0) then
    print (p_stdout p) ;;;
    print (p_stderr p) ;;;
    raise (ValueError "gclient getdep failed.")
  else ret (p_stdout p).

(** ** search_pattern (lines 89-96) *)

(** The patterns the scripts search for are a literal text followed by one group, a greedy
    run of characters of a class. [re_source] is the pattern as written. *)
Record pattern : Type := {
  re_source : string;
  re_literal : string;
  re_class : ascii -> bool
}.

Fixpoint strip_prefix (p s : string) : option string :=
  match p, s with
  | EmptyString, _ => Some s
  | String a p', String b s' => if Ascii.eqb a b then strip_prefix p' s' else None
  | String _ _, EmptyString => None
  end.

Fixpoint take_while (f : ascii -> bool) (s : string) : string :=
  match s with
  | EmptyString => EmptyString
  | String c s' => if f c then String c (take_while f s') else EmptyString
  end.

(** [re.search(pattern, content)], giving [match.group(1)]: the leftmost
    place where the literal occurs, and the longest run after it. *)
Fixpoint re_search (p : pattern) (content : string) : option string :=
  match strip_prefix (re_literal p) content with
  | Some rest => Some (take_while (re_class p) rest)
  | None =>
      match content with
      | EmptyString => None
      | String _ content' => re_search p content'
      end
  end.

Definition search_pattern (filename : string) (p : pattern) : M string :=
  fun s =>
    match read_text w (trace s) filename with
    | None => (Raise (OSError filename), s)
    | Some content =>
        match re_search p content with
        | Some g => (Ok g, s)
        | None => (Raise (ValueError ("Failed to match pattern: " +:+ re_source p)), s)
        end
    end.

(** ** download_from_google_storage (lines 98-112) *)

(** The argument vector built at lines 100-111. A [None] or empty value is
    false in Python and adds nothing. *)
Definition download_args
    (bucket : string) (sha_file sha1 : option string)
    (extract : bool) (output : option string) : list string :=
  ([ sys_executable h;
     "third_party/depot_tools/download_from_google_storage.py";
     "--no_resume"; "--no_auth";
     "--bucket"; bucket ]
   ++ (if PyStr.truthy_opt sha1 then [ default EmptyString sha1 ] else [])
   ++ (if PyStr.truthy_opt sha_file then [ "-s"; default EmptyString sha_file ] else [])
   ++ (if extract then [ "--extract" ] else [])
   ++ (if PyStr.truthy_opt output then [ "-o"; default EmptyString output ] else []))%list.

Definition download_from_google_storage
    (bucket : string) (sha_file sha1 : option string)
    (extract : bool) (output : option string) : M unit :=
  check_call (download_args bucket sha_file sha1 extract output).

(** ** download_gcs_dep (lines 114-119) *)

Definition download_gcs_dep (name bucket : string) : M unit :=
  text <- read_var_from_deps ("src/" +:+ name) "DEPS" ;;
  obj <- lift (first_object w text) ;;
  let output_file := os_path_join h name (fst obj) in
  download_from_google_storage bucket None (Some (snd obj)) true (Some output_file).

(** ** download_nodejs (lines 121-143) *)

Definition is_version_char (c : ascii) : bool :=
  let n := Z.of_N (N_of_ascii c) in
  ((48 <=? n) && (n <=? 57)) || (n =? 46).

(** The pattern of line 124: the bucket prefix, then a group of digits
    and dots. *)
Definition node_version_pattern : pattern :=
  {| re_source := "chromium-nodejs/([0-9.]*)";
     re_literal := "chromium-nodejs/";
     re_class := is_version_char |}.

(** The local names of [download_nodejs] at line 131: its parameter and
    [node_version]. *)
Definition download_nodejs_locals (host_os node_version : string)
  : gmap string pyval :=
  <["node_version" := PyString node_version]>
    (<["host_os" := PyString host_os]> ∅).

Definition download_nodejs (host_os : string) : M unit :=
  marker <- exists_ "third_party/node/linux/node-linux-x64.tar.gz.sha1" ;;
  if marker then
    node_version <- search_pattern "DEPS" node_version_pattern ;;
    download_from_google_storage
      ("chromium-nodejs/" +:+ node_version)
      (Some "third_party/node/linux/node-linux-x64.tar.gz.sha1")
      None true None ;;;
    if String.eqb host_os "mac" then
      host_cpu <- load_name (download_nodejs_locals host_os node_version)
                    "host_cpu" ;;
      download_from_google_storage
        ("chromium-nodejs/" +:+ node_version)
        (Some ("third_party/node/mac/node-darwin-" +:+ format host_cpu
               +:+ ".tar.gz.sha1"))
        None true None
    else if String.eqb host_os "win" then
      download_from_google_storage
        ("chromium-nodejs/" +:+ node_version)
        (Some "third_party/node/win/node.exe.sha1")
        None false None
    else ret tt
  else
    download_gcs_dep "third_party/node/linux" "chromium-nodejs" ;;;
    if String.eqb host_os "mac" then
      download_gcs_dep "third_party/node/mac" "chromium-nodejs" ;;;
      download_gcs_dep "third_party/node/mac_arm64" "chromium-nodejs"
    else if String.eqb host_os "win" then
      download_gcs_dep "third_party/node/win" "chromium-nodejs"
    else ret tt.

(** ** main (lines 145-247) *)

(** The options given on the command line; [None] when an option is absent. *)
Record Cli : Type := {
  cli_revision : option string;
  cli_tarball_url : option string;
  cli_src_dir : option string;
  cli_target_cpu : option string;
  cli_target_os : option string
}.

(** The namespace [parser.parse_args()] returns. *)
Record Args : Type := {
  revision : option string;
  tarball_url : option string;
  src_dir : string;
  target_cpu : string;
  target_os : string
}.

(** Lines 146-155. The defaults are computed when the options are declared,
    whether or not the command line overrides them. *)
Definition parse_args (cli : Cli) : M Args :=
  let default_src_dir := os_path_join h (ROOT_DIR h) "src" in
  default_cpu <- lift (current_cpu h) ;;
  default_os <- lift (current_os h) ;;
  ret {| revision := cli_revision cli;
         tarball_url := cli_tarball_url cli;
         src_dir := default default_src_dir (cli_src_dir cli);
         target_cpu := default default_cpu (cli_target_cpu cli);
         target_os := default default_os (cli_target_os cli) |}.

(** Lines 161-164. *)
Definition tarball_url_of (args : Args) : string :=
  match revision args with
  | Some r =>
      if PyStr.truthy r
      then CHROMIUM_URL +:+ "/" +:+ r +:+ "/chromium-" +:+ r +:+ ".tar.xz"
      else default EmptyString (tarball_url args)
  | None => default EmptyString (tarball_url args)
  end.

(** Lines 166-177, the source tarball. The value is [Some 1] when the block
    leaves [main] through [return 1], and [None] when control falls through
    to line 179. *)
Definition acquire_source (args : Args) : M (option Z) :=
  present <- isdir (src_dir args) ;;
  if negb present then
    let tarball_dir :=
      PyStr.drop_last 7 (os_path_basename h (tarball_url_of args)) in
    taken <- isdir tarball_dir ;;
    if taken then
      print ("Unable to download tarball since " +:+ tarball_dir +:+ " exists.") ;;;
      ret (Some 1)
    else
      print_noend ("Download and extract " +:+ tarball_dir) ;;;
      download_and_extract (tarball_url_of args) "." ;;;
      print "Done" ;;;
      emit (Rename tarball_dir (src_dir args)) ;;;
      ret None
  else ret None.

(** Lines 201-211, the tools installed on every host. *)
Definition install_common_tools : M unit :=
  esbuild <- isdir "third_party/devtools-frontend/src/third_party/esbuild" ;;
  (if esbuild then
     version <- read_var_from_deps
                  "third_party/esbuild:infra/3pp/tools/esbuild/${platform}"
                  "third_party/devtools-frontend/src/DEPS" ;;
     cipd "third_party/devtools-frontend/src/third_party/esbuild"
          "infra/3pp/tools/esbuild/${platform}" version
   else ret tt) ;;;
  version <- read_var_from_deps
               "src/third_party/ninja:infra/3pp/tools/ninja/${platform}" "DEPS" ;;
  cipd "third_party/ninja" "infra/3pp/tools/ninja/${platform}" version ;;;
  version <- read_var_from_deps
               "src/buildtools/reclient:infra/rbe/client/${platform}" "DEPS" ;;
  cipd "buildtools/reclient" "infra/rbe/client/${platform}" version.

(** Lines 212-237, the build-graph generator and the per-host extras. *)
Definition install_host_tools (args : Args) (host_os host_cpu : string) : M unit :=
  gn_version <- read_var_from_deps "src/buildtools/mac:gn/gn/mac-${arch}" "DEPS" ;;
  if String.eqb host_os "linux" then
    cipd "buildtools/linux64" "gn/gn/linux-${arch}" gn_version ;;;
    when (String.eqb (target_os args) "win")
      (download_from_google_storage
         "chromium-browser-clang/rc"
         (Some "build/toolchain/win/rc/linux64/rc.sha1") None false None)
  else if String.eqb host_os "mac" then
    cipd "buildtools/mac" "gn/gn/mac-${arch}" gn_version ;;;
    download_from_google_storage
      "chromium-browser-clang"
      (Some ("tools/clang/dsymutil/bin/dsymutil." +:+ host_cpu +:+ ".sha1"))
      None false (Some "tools/clang/dsymutil/bin/dsymutil") ;;;
    when (String.eqb (target_os args) "win")
      (download_from_google_storage
         "chromium-browser-clang/rc"
         (Some "build/toolchain/win/rc/mac/rc.sha1") None false None)
  else if String.eqb host_os "win" then
    cipd "buildtools/win" "gn/gn/windows-amd64" gn_version ;;;
    download_from_google_storage
      "chromium-browser-clang/rc"
      (Some "build/toolchain/win/rc/win/rc.exe.sha1") None false None
  else ret tt.

(** Lines 239-247, the Linux sysroots. *)
Definition install_sysroots (args : Args) (host_os host_cpu : string) : M unit :=
  when (String.eqb host_os "linux")
    (check_call [ sys_executable h;
                  "build/linux/sysroot_scripts/install-sysroot.py";
                  "--arch"; host_cpu ] ;;;
     when (negb (String.eqb host_cpu (target_cpu args)))
       (check_call [ sys_executable h;
                     "build/linux/sysroot_scripts/install-sysroot.py";
                     "--arch"; target_cpu args ])).

(** Lines 179-247, everything after the source tarball. *)
Definition provision (args : Args) : M (option Z) :=
  host_os <- lift (current_os h) ;;
  host_cpu <- lift (current_cpu h) ;;
  when (String.eqb host_os "win")
    (check_call [ os_path_join h (ROOT_DIR h)
                    "vendor/depot_tools/bootstrap/win_tools.bat" ]) ;;;
  add_depot_tools_to_path (src_dir args) ;;;
  emit (Chdir (src_dir args)) ;;;
  when (String.eqb host_os "win")
    (check_call [ sys_executable h; "build/vs_toolchain.py"; "update"; "--force" ]) ;;;
  check_call [ sys_executable h; "tools/clang/scripts/update.py" ] ;;;
  check_call [ sys_executable h; "tools/rust/update_rust.py" ] ;;;
  download_nodejs host_os ;;;
  install_common_tools ;;;
  install_host_tools args host_os host_cpu ;;;
  install_sysroots args host_os host_cpu ;;;
  ret None.

(** [main()]: its value is [Some 1] for [return 1] and [None] when the
    function runs to its end; the script then leaves through
    [exit(main())]. *)
Definition main (cli : Cli) : M (option Z) :=
  args <- parse_args cli ;;
  if negb (PyStr.truthy_opt (revision args))
     && negb (PyStr.truthy_opt (tarball_url args)) then
    print "Must specify either --revision or --tarball-url." ;;;
    ret (Some 1)
  else
    stop <- acquire_source args ;;
    match stop with
    | Some code => ret (Some code)
    | None => provision args
    end.

(** ** gn_gen (gn_gen.py, lines 10-19) *)

(** The child writes its standard error into its standard output; the text
    read from that pipe is [p_stdout]. The exit status collected by
    [process.wait()] is not looked at. *)
Definition gn_gen (src_dir out_dir : string) (args : list string) : M unit :=
  let joined_args := PyStr.join " " args in
  os <- lift (current_os h) ;;
  let gn_bin := if String.eqb os "win" then "gn.bat" else "gn" in
  process <- run [ gn_bin; "gen"; out_dir; "--args=" +:+ joined_args ]
                 (Some src_dir) None ;;
  for_each (PyStr.lines (p_stdout process))
    (fun line =>
       if negb (PyStr.contains ".gclient_entries missing" line)
       then print (PyStr.strip line)
       else ret tt) ;;;
  ret tt.

(** ** main of gn_gen.py (lines 21-69) *)

(** The options given on the command line of gn_gen.py. *)
Record GnCli : Type := {
  gn_target_cpu : option string;
  gn_target_os : option string;
  gn_src_dir : option string;
  gn_arg : list string;
  gn_reclient : bool;
  gn_config : option string;
  gn_custom_config : option string
}.

(** [args.config == name] *)
Definition config_is (cli : GnCli) (name : string) : bool :=
  match gn_config cli with
  | Some c => String.eqb c name
  | None => false
  end.

Definition gn_main (cli : GnCli) : M unit :=
  default_cpu <- lift (current_cpu h) ;;
  default_os <- lift (current_os h) ;;
  let src_dir := default (os_path_join h (ROOT_DIR h) "src") (gn_src_dir cli) in
  add_depot_tools_to_path src_dir ;;;
  let arg :=
    (gn_arg cli
     ++ [ "target_cpu=" +:+ DQ +:+ default default_cpu (gn_target_cpu cli) +:+ DQ;
          "target_os=" +:+ DQ +:+ default default_os (gn_target_os cli) +:+ DQ ]
     ++ (if negb (PyStr.truthy_opt (gn_custom_config cli))
         then [ "enable_nacl=false" ] else [])
     ++ (if gn_reclient cli then [ "use_remoteexec=true" ] else []))%list in
  let generate_all :=
    negb (PyStr.truthy_opt (gn_config cli))
    && negb (PyStr.truthy_opt (gn_custom_config cli)) in
  when (generate_all || config_is cli "Component")
    (gn_gen src_dir "out/Component"
       (arg ++ [ "is_component_build=true"; "is_debug=false" ])%list) ;;;
  when (generate_all || config_is cli "Release")
    (gn_gen src_dir "out/Release"
       (arg ++ [ "is_component_build=false"; "is_debug=false";
                 "chrome_pgo_phase=0"; "is_official_build=true" ])%list) ;;;
  when (generate_all || config_is cli "Debug")
    (gn_gen src_dir "out/Debug"
       (arg ++ [ "is_component_build=true"; "is_debug=true" ])%list) ;;;
  when (PyStr.truthy_opt (gn_custom_config cli))
    (gn_gen src_dir ("out/" +:+ default EmptyString (gn_custom_config cli)) arg).

End Program.

(** ** Reading a trace *)

Definition arg_is (argv : list string) (i : nat) (expected : string) : bool :=
  match nth_error argv i with
  | Some a => String.eqb a expected
  | None => false
  end.

Definition arg_starts (argv : list string) (i : nat) (p : string) : bool :=
  match nth_error argv i with
  | Some a => String.prefix p a
  | None => false
  end.

(** The sysroot installations of lines 241-247: the architecture asked for. *)
Definition sysroot_install (e : event) : option string :=
  match e with
  | Spawn argv _ _ =>
      if arg_is argv 1 "build/linux/sysroot_scripts/install-sysroot.py"
         && arg_is argv 2 "--arch" && Nat.eqb (List.length argv) 4
      then nth_error argv 3 else None
  | _ => None
  end.

Definition sysroot_archs (evs : list event) : list string :=
  omap sysroot_install evs.

(** The steps the scripts run only for Windows, as host or as target: the
    tool bootstrap of line 185, the toolchain update of line 192, the
    [.bat] package client, the generator installed into [buildtools/win],
    the resource compiler (bucket [chromium-browser-clang/rc], lines 216,
    228, 234) and the Windows node binaries (lines 133-136 and 143). *)
Definition win_specific (h : Host) (e : event) : bool :=
  match e with
  | Spawn argv _ _ =>
      match argv with
      | [ tool ] =>
          String.eqb tool (os_path_join h (ROOT_DIR h)
                             "vendor/depot_tools/bootstrap/win_tools.bat")
      | _ =>
          arg_is argv 1 "build/vs_toolchain.py"
          || (arg_is argv 1 "ensure"
              && (arg_is argv 0 "cipd.bat" || arg_is argv 3 "buildtools/win"))
          || (arg_is argv 1 "third_party/depot_tools/download_from_google_storage.py"
              && (arg_is argv 5 "chromium-browser-clang/rc"
                  || (arg_is argv 6 "-s"
                      && arg_is argv 7 "third_party/node/win/node.exe.sha1")))
          || (arg_is argv 1 "third_party/depot_tools/gclient.py"
              && arg_is argv 6 "src/third_party/node/win")
      end
  | _ => false
  end.

(** The steps the scripts run only on a Mac host: the generator installed
    into [buildtools/mac] (line 221), dsymutil (line 222) and the Mac node
    binaries (lines 129-131 and 140-141). *)
Definition mac_specific (e : event) : bool :=
  match e with
  | Spawn argv _ _ =>
      (arg_is argv 1 "ensure" && arg_is argv 3 "buildtools/mac")
      || (arg_is argv 1 "third_party/depot_tools/download_from_google_storage.py"
          && arg_is argv 6 "-s"
          && (arg_starts argv 7 "third_party/node/mac/"
              || arg_starts argv 7 "tools/clang/dsymutil/"))
      || (arg_is argv 1 "third_party/depot_tools/gclient.py"
          && (arg_is argv 6 "src/third_party/node/mac"
              || arg_is argv 6 "src/third_party/node/mac_arm64"))
  | _ => false
  end.

(** An event that is none of the above. *)
Definition plain (h : Host) (e : event) : bool :=
  negb (win_specific h e) && negb (mac_specific e)
  && match sysroot_install e with None => true | Some _ => false end.

(** An event that is neither the archive download nor the rename that puts
    the extracted tree in place. *)
Definition keeps_source (e : event) : bool :=
  match e with
  | Fetch _ _ | Rename _ _ => false
  | _ => true
  end.

(** The environment overlay of [add_depot_tools_to_path] for a source
    directory and the search path found in the environment. *)
Definition overlay (h : Host) (src_dir old_path : string) : gmap string string :=
  list_to_map
    [ ("DEPOT_TOOLS_UPDATE", "0");
      ("CHROMIUM_BUILDTOOLS_PATH",
         os_path_join h (os_path_abspath h src_dir) "buildtools");
      ("PATH",
         PyStr.join (os_pathsep h)
           [ os_path_join h (os_path_join h src_dir "third_party") "ninja";
             os_path_join h (os_path_join h (ROOT_DIR h) "vendor") "depot_tools";
             old_path ]);
      ("DEPOT_TOOLS_WIN_TOOLCHAIN", "1");
      ("DEPOT_TOOLS_WIN_TOOLCHAIN_BASE_URL",
         "https://dev-cdn.electronjs.org/windows-toolchains/_");
      ("GYP_MSVS_HASH_27370823e7", "28622d16b1");
      ("GYP_MSVS_HASH_7393122652", "3ba76c5c20") ].

(** The lines of the child's output that [gn_gen] prints. *)
Definition shown (line : string) : bool :=
  negb (PyStr.contains ".gclient_entries missing" line).

(** Every event a computation adds to the trace satisfies [f], whatever
    state it starts from and however it ends. *)
Definition emits {A} (f : event -> bool) (m : M A) : Prop :=
  forall s, exists evs,
    trace (snd (m s)) = (trace s ++ evs)%list /\ forallb f evs = true.

(** The state [s] after the events [evs]. *)
Definition extend (s : state) (evs : list event) : state :=
  {| environ := environ s; trace := trace s ++ evs |}.

(** A call that is refused as a violation of the caller's contract: it
    raises, and does so before anything was done to the outside world. *)
Definition refused {A} (s : state) (r : result A * state) : Prop :=
  (exists e, fst r = Raise e) /\ trace (snd r) = trace s.

(** The resource-compiler download of line 216, made on a linux host when
    the target OS is win. *)
Definition rc_step (h : Host) (args : Args) : list event :=
  if String.eqb (target_os args) "win"
  then [ Spawn (download_args h "chromium-browser-clang/rc"
                  (Some "build/toolchain/win/rc/linux64/rc.sha1") None false None)
           None None ]
  else [].

(** The sysroot installations of lines 241-247. *)
Definition sysroot_steps (h : Host) (host_cpu target : string) : list event :=
  Spawn [ sys_executable h; "build/linux/sysroot_scripts/install-sysroot.py";
          "--arch"; host_cpu ] None None
  :: (if String.eqb host_cpu target then []
      else [ Spawn [ sys_executable h;
                     "build/linux/sysroot_scripts/install-sysroot.py";
                     "--arch"; target ] None None ]).

(** What the sysroot claim asks of a run that started in [s] and ended as
    [r], on a linux host with CPU [hc] and target CPU [tc]: one sysroot for
    the host CPU, one more for the target CPU when it differs, and no
    Windows or Mac step. *)
Definition linux_plan_as_stated (h : Host) (hc tc : string) (s : state)
    (r : result (option Z) * state) : Prop :=
  exists evs,
    trace (snd r) = (trace s ++ evs)%list
    /\ sysroot_archs evs = hc :: (if String.eqb hc tc then [] else [tc])
    /\ existsb (win_specific h) evs = false
    /\ existsb mac_specific evs = false.

(** The run goes on with the stages after the source tarball: it is the run
    of lines 179-247 on the parsed arguments. *)
Definition proceeds_to_provisioning (h : Host) (w : World) (cli : Cli)
    (s : state) : Prop :=
  main h w cli s = (args <- parse_args h cli ;; provision h w args) s.

(** ** Concrete hosts and worlds *)

(** [posixpath], as far as the examples need it. *)
Module Posix.

Definition ends_with_slash (s : string) : bool :=
  match String.length s with
  | O => false
  | S n => String.eqb (String.substring n 1 s) "/"
  end.

Definition join (a b : string) : string :=
  if String.prefix "/" b then b
  else if String.eqb a EmptyString || ends_with_slash a then a +:+ b
  else a +:+ "/" +:+ b.

Fixpoint basename_from (cur s : string) : string :=
  match s with
  | EmptyString => cur
  | String c s' =>
      if Ascii.eqb c "/"%char then basename_from EmptyString s'
      else basename_from (cur +:+ String c EmptyString) s'
  end.

Definition basename : string -> string := basename_from EmptyString.

Definition abspath (cwd p : string) : string :=
  if String.prefix "/" p then p else join cwd p.

Definition host (platform machine : string) : Host :=
  {| sys_platform := platform;
     platform_machine := machine;
     sys_executable := "/usr/bin/python3";
     ROOT_DIR := "/work";
     os_pathsep := ":";
     os_path_join := join;
     os_path_abspath := abspath "/work";
     os_path_basename := basename |}.

End Posix.

(** The same host reporting another machine name. *)
Definition with_machine (h : Host) (machine : string) : Host :=
  {| sys_platform := sys_platform h;
     platform_machine := machine;
     sys_executable := sys_executable h;
     ROOT_DIR := ROOT_DIR h;
     os_pathsep := os_pathsep h;
     os_path_join := os_path_join h;
     os_path_abspath := os_path_abspath h;
     os_path_basename := os_path_basename h |}.

Definition linux_x64 : Host := Posix.host "linux" "x86_64".
Definition mac_arm64 : Host := Posix.host "darwin" "arm64".

(** A world in which every child process exits with [code], printing
    [text] on both pipes, the source directory [/work/src] exists, the node
    marker file exists, and [DEPS] pins node 20.11.0. *)
Definition steady (code : Z) (text : string) : World :=
  {| run_process := fun _ _ _ _ =>
       {| returncode := code; p_stdout := text; p_stderr := text |};
     path_isdir := fun _ p => String.eqb p "/work/src";
     path_exists := fun _ _ => true;
     read_text := fun _ _ => Some "'src/third_party/node': chromium-nodejs/20.11.0,";
     archive := fun _ _ => (0%nat, true);
     first_object := fun _ => Ok ("node.tar.gz", "0123abcd") |}.

Definition start : state :=
  {| environ := {[ "PATH" := "/usr/bin" ]}; trace := [] |}.

Definition cli_of (rev cpu os : option string) : Cli :=
  {| cli_revision := rev;
     cli_tarball_url := None;
     cli_src_dir := None;
     cli_target_cpu := cpu;
     cli_target_os := os |}.

(** ** The claims about the platform resolver, as relations *)

(** What CPU resolution is to return for the architecture name [arch]. *)
Inductive cpu_resolution (arch : string) : result string -> Prop :=
| cpu_x64 :
    arch = "amd64" \/ arch = "x86_64" \/ arch = "x64" ->
    cpu_resolution arch (Ok "x64")
| cpu_arm64 :
    arch = "arm64" ->
    cpu_resolution arch (Ok "arm64")
| cpu_arm :
    String.prefix "arm" arch = true -> arch <> "arm64" ->
    cpu_resolution arch (Ok "arm")
| cpu_unrecognized :
    arch <> "amd64" -> arch <> "x86_64" -> arch <> "x64" ->
    String.prefix "arm" arch = false ->
    cpu_resolution arch
      (Raise (ValueError ("Unrecognized CPU architecture: " +:+ arch))).

(** The platform identifiers the resolver knows. *)
Definition recognized_platform (p : string) : bool :=
  String.prefix "linux" p || String.prefix "win" p || String.eqb p "darwin".

(** ** build.py *)

(** [s.endswith(suffix)] *)
Definition endswith (s suffix : string) : bool :=
  Nat.leb (String.length suffix) (String.length s)
  && String.eqb
       (String.substring (String.length s - String.length suffix)
          (String.length suffix) s)
       suffix.

(** What build.py reads from the interpreter besides the [Host]:
    [os.path.isabs] and the module search path [sys.path]. *)
Record Interp : Type := {
  os_path_isabs : string -> bool;
  sys_path : list string
}.

(** How the script build.py ends: by running to its end, or through
    [sys.exit(code)]. *)
Inductive outcome : Type :=
| Finished
| Exit (code : Z).

(** The command line of build.py: the positional targets, the two options,
    and the arguments the parser does not know, which
    [parse_known_args] hands back. *)
Record BuildCli : Type := {
  build_targets : list string;
  build_src_dir : option string;
  build_out_dir : option string;
  build_unknown : list string
}.

Section Build.

Context (h : Host) (py : Interp) (w : World).

(** The file [args.gn] of a configuration (lines 11-13). *)
Definition args_gn_path (src_dir out_dir : string) : string :=
  let args_gn := os_path_join h out_dir "args.gn" in
  if negb (os_path_isabs py args_gn) then os_path_join h src_dir args_gn
  else args_gn.

(** get_gn_config (lines 10-16) *)
Definition get_gn_config (src_dir out_dir : string) : M (bool * bool) :=
  fun s =>
    match read_text w (trace s) (args_gn_path src_dir out_dir) with
    | None => (Raise (OSError (args_gn_path src_dir out_dir)), s)
    | Some content =>
        (Ok (PyStr.contains "use_remoteexec = true" content,
             PyStr.contains "goma.gn" content), s)
    end.

(** [args.targets]: the default list stands in when no target is given. *)
Definition targets_of (cli : BuildCli) : list string :=
  match build_targets cli with
  | [] => [ "views_examples" ]
  | l => l
  end.

(** The command line of the build executor (lines 40-48). *)
Definition ninja_command (os out_dir : string) (fast : bool)
    (cli : BuildCli) : list string :=
  ([ if String.eqb os "win" then "autoninja.bat" else "autoninja";
     "-C"; out_dir ]
   ++ (if fast then [ "-j"; "200" ] else [])
   ++ build_unknown cli ++ targets_of cli)%list.

(** main of build.py (lines 18-53). An interrupt from the keyboard is not
    modelled. *)
Definition build_main (cli : BuildCli) : M outcome :=
  let src_dir := default (os_path_join h (ROOT_DIR h) "src") (build_src_dir cli) in
  let out_dir := default "out/Component" (build_out_dir cli) in
  add_depot_tools_to_path h src_dir ;;;
  os <- lift (current_os h) ;;
  when (String.eqb os "win")
    (setenv "PYTHONPATH"
       (PyStr.join (os_pathsep h)
          (List.filter (fun path => endswith path "site-packages")
             (sys_path py)))) ;;;
  os <- lift (current_os h) ;;
  config <- get_gn_config src_dir out_dir ;;
  process <- run w (ninja_command os out_dir (fst config || snd config) cli)
               (Some src_dir) None ;;
  if returncode process =? 0 then ret Finished
  else ret (Exit (returncode process)).

End Build.

(** An interpreter on a POSIX host with one user and one system package
    directory on its search path. *)
Definition posix_interp : Interp :=
  {| os_path_isabs := String.prefix "/";
     sys_path := [ "/work"; "/usr/lib/python3/site-packages";
                   "/usr/lib/python3"; "/home/dev/.local/site-packages" ] |}.

(** The world [w], except that every file that is read holds [content]. *)
Definition reading (w : World) (content : string) : World :=
  {| run_process := run_process w;
     path_isdir := path_isdir w;
     path_exists := path_exists w;
     read_text := fun _ _ => Some content;
     archive := archive w;
     first_object := first_object w |}.

(** A Windows host; Python on Windows accepts forward slashes, and the
    examples join paths with them. *)
Definition win_x64 : Host :=
  {| sys_platform := "win32";
     platform_machine := "AMD64";
     sys_executable := "C:/Python/python.exe";
     ROOT_DIR := "C:/work";
     os_pathsep := ";";
     os_path_join := Posix.join;
     os_path_abspath := Posix.abspath "C:/work";
     os_path_basename := Posix.basename |}.

(** Every character of [s] satisfies [f]. *)
Fixpoint all_chars (f : ascii -> bool) (s : string) : bool :=
  match s with
  | EmptyString => true
  | String c s' => f c && all_chars f s'
  end.

(** [s] is empty or starts with a character that does not satisfy [f]. *)
Definition stops_run (f : ascii -> bool) (s : string) : bool :=
  match s with
  | EmptyString => true
  | String c _ => negb (f c)
  end.

(** A start of the blob retrieval client. *)
Definition is_download (e : event) : bool :=
  match e with
  | Spawn argv _ _ =>
      arg_is argv 1 "third_party/depot_tools/download_from_google_storage.py"
  | _ => false
  end.

(** The key a manifest query asks for. *)
Definition getdep_var (e : event) : option string :=
  match e with
  | Spawn argv _ _ =>
      if arg_is argv 1 "third_party/depot_tools/gclient.py"
         && arg_is argv 2 "getdep" && Nat.eqb (List.length argv) 7
      then nth_error argv 6 else None
  | _ => None
  end.

Definition getdep_vars (evs : list event) : list string :=
  omap getdep_var evs.

(** The node builds a host needs when they are pinned in the manifest
    (lines 138-143): the linux one always, then those of the host. *)
Definition node_platforms (host_os : string) : list string :=
  "linux"
  :: (if String.eqb host_os "mac" then [ "mac"; "mac_arm64" ]
      else if String.eqb host_os "win" then [ "win" ]
      else []).

(** The manifest query of [read_var_from_deps]. *)
Definition getdep_args (h : Host) (var deps_file : string) : list string :=
  [ sys_executable h; "third_party/depot_tools/gclient.py"; "getdep";
    "--deps-file"; deps_file; "-r"; var ].

(** The world [w] without the node marker file and any other file asked
    for with [os.path.exists]. *)
Definition without_files (w : World) : World :=
  {| run_process := run_process w;
     path_isdir := path_isdir w;
     path_exists := fun _ _ => false;
     read_text := read_text w;
     archive := archive w;
     first_object := first_object w |}.

(** The arguments [parse_args] returns on a host whose CPU and OS resolve
    to [cpu] and [os]. *)
Definition args_of (h : Host) (cli : Cli) (cpu os : string) : Args :=
  {| revision := cli_revision cli;
     tarball_url := cli_tarball_url cli;
     src_dir := default (os_path_join h (ROOT_DIR h) "src") (cli_src_dir cli);
     target_cpu := default cpu (cli_target_cpu cli);
     target_os := default os (cli_target_os cli) |}.

(** The directory the source tarball is expected to unpack to (line 168). *)
Definition tarball_dir_of (h : Host) (args : Args) : string :=
  PyStr.drop_last 7 (os_path_basename h (tarball_url_of args)).

(** A world of a first checkout: no directory exists yet, and the source
    archive holds 12000 members and streams well. *)
Definition first_checkout : World :=
  {| run_process := run_process (steady 0 EmptyString);
     path_isdir := fun _ _ => false;
     path_exists := path_exists (steady 0 EmptyString);
     read_text := read_text (steady 0 EmptyString);
     archive := fun _ _ => ((12 * 1000)%nat, true);
     first_object := first_object (steady 0 EmptyString) |}.

(** Not the path separator of POSIX. *)
Definition not_slash (c : ascii) : bool := negb (Ascii.eqb c "/"%char).




(** The output directory of a start of [gn gen]. *)
Definition gen_dir (e : event) : option string :=
  match e with
  | Spawn argv (Some _) None =>
      if arg_is argv 1 "gen" && Nat.eqb (List.length argv) 4
      then nth_error argv 2 else None
  | _ => None
  end.

Definition gen_dirs (evs : list event) : list string := omap gen_dir evs.

(** The configurations gn_gen.py is asked for: each standard one when it is
    selected or when nothing is selected, then the custom one. *)
Definition gn_plan (cli : GnCli) : list string :=
  let nothing_selected :=
    negb (PyStr.truthy_opt (gn_config cli))
    && negb (PyStr.truthy_opt (gn_custom_config cli)) in
  ((if nothing_selected || config_is cli "Component" then [ "out/Component" ] else [])
   ++ (if nothing_selected || config_is cli "Release" then [ "out/Release" ] else [])
   ++ (if nothing_selected || config_is cli "Debug" then [ "out/Debug" ] else [])
   ++ (if PyStr.truthy_opt (gn_custom_config cli)
       then [ "out/" +:+ default EmptyString (gn_custom_config cli) ] else []))%list.

(** A computation that always succeeds, touches only the trace, and starts
    [gn gen] for exactly the directories [dirs], in order. *)
Definition generates (m : M unit) (dirs : list string) : Prop :=
  forall s, exists evs, m s = (Ok tt, extend s evs) /\ gen_dirs evs = dirs.

(** What every run of the later stages starts with (lines 182-197): on
    Windows the tool bootstrap, then the change into the source directory,
    on Windows the toolchain update, then the two compiler updates. *)
Definition toolchain_steps (h : Host) (host_os src : string) : list event :=
  ((if String.eqb host_os "win"
    then [ Spawn [ os_path_join h (ROOT_DIR h)
                     "vendor/depot_tools/bootstrap/win_tools.bat" ] None None ]
    else [])
   ++ [ Chdir src ]
   ++ (if String.eqb host_os "win"
       then [ Spawn [ sys_executable h; "build/vs_toolchain.py"; "update";
                      "--force" ] None None ]
       else [])
   ++ [ Spawn [ sys_executable h; "tools/clang/scripts/update.py" ] None None;
        Spawn [ sys_executable h; "tools/rust/update_rust.py" ] None None ])%list.

(** Any event. *)
Definition any_event (e : event) : bool := true.

(** * Theorems *)

(** ** Platform resolver *)

Lemma current_os_linux (h : Host) :
  String.prefix "linux" (sys_platform h) = true -> current_os h = Ok "linux".
Proof. intros Hp. unfold current_os, PyStr.startswith. now rewrite Hp. Qed.

Lemma current_os_cases (h : Host) (t : string) :
  current_os h = Ok t -> t = "linux" \/ t = "win" \/ t = "mac".
Proof.
  unfold current_os.
  repeat match goal with |- context [if ?b then _ else _] => destruct b end;
    intros [= <-]; auto.
Qed.

(** C5. For every platform identifier, OS resolution returns one of the
    three tokens linux, mac, win when the identifier is a recognized one
    (it starts with linux, it starts with win, or it is darwin), and raises
    the unsupported-platform error, carrying the identifier, on every other
    identifier; no identifier is mapped to a default token. *)
Theorem current_os_resolves_or_fails (h : Host) :
  (recognized_platform (sys_platform h) = true
   /\ (current_os h = Ok "linux" \/ current_os h = Ok "mac"
       \/ current_os h = Ok "win"))
  \/ (recognized_platform (sys_platform h) = false
      /\ current_os h
         = Raise (ValueError ("Unsupported platform: " +:+ sys_platform h))).
Proof.
  unfold recognized_platform, current_os, PyStr.startswith.
  destruct (String.prefix "linux" (sys_platform h)); [left; auto |].
  destruct (String.prefix "win" (sys_platform h)); [left; auto |].
  destruct (String.eqb (sys_platform h) "darwin"); [left; auto |].
  right; auto.
Qed.

(** C3, as amended. CPU resolution reads the reported architecture name in
    lower case: on that lower-cased name it returns x64 for amd64, x86_64
    and x64, arm64 for arm64, arm for any other name starting with arm, and
    raises the unrecognized-architecture error on every other name. *)
Theorem current_cpu_resolves_lowercased (h : Host) :
  cpu_resolution (PyStr.lower (platform_machine h)) (current_cpu h).
Proof.
  unfold current_cpu, PyStr.startswith.
  set (arch := PyStr.lower (platform_machine h)).
  destruct (String.eqb arch "amd64") eqn:E1; simpl.
  { apply cpu_x64. left. now apply String.eqb_eq. }
  destruct (String.eqb arch "x86_64") eqn:E2; simpl.
  { apply cpu_x64. right; left. now apply String.eqb_eq. }
  destruct (String.eqb arch "x64") eqn:E3; simpl.
  { apply cpu_x64. right; right. now apply String.eqb_eq. }
  apply String.eqb_neq in E1, E2, E3.
  destruct (String.eqb arch "arm64") eqn:E4.
  { apply cpu_arm64. now apply String.eqb_eq. }
  apply String.eqb_neq in E4.
  destruct (String.prefix "arm" arch) eqn:E5.
  - now apply cpu_arm.
  - now apply cpu_unrecognized.
Qed.

(** C3, the claim as stated fails: a host reporting AMD64 is resolved to
    x64, although AMD64 is none of the names the claim lists and the claim
    asks for a failure on every other name. *)
Lemma current_cpu_uppercase_not_rejected :
  current_cpu (Posix.host "win32" "AMD64") = Ok "x64"
  /\ ~ cpu_resolution "AMD64" (current_cpu (Posix.host "win32" "AMD64")).
Proof.
  split; [reflexivity |].
  change (current_cpu (Posix.host "win32" "AMD64")) with (@Ok string "x64").
  intros H. inversion H as [ [E | [E | E]] | | | ]; discriminate E.
Qed.

(** C4. Normalizing an already normalized token returns it unchanged, for
    each of x64, arm64 and arm and for whatever token resolution returned;
    amd64, x86_64 and x64 normalize to the same token. *)
Theorem current_cpu_idempotent (h : Host) :
  current_cpu (with_machine h "x64") = Ok "x64"
  /\ current_cpu (with_machine h "arm64") = Ok "arm64"
  /\ current_cpu (with_machine h "arm") = Ok "arm"
  /\ current_cpu (with_machine h "amd64") = current_cpu (with_machine h "x64")
  /\ current_cpu (with_machine h "x86_64") = current_cpu (with_machine h "x64")
  /\ match current_cpu h with
     | Ok token => current_cpu (with_machine h token) = Ok token
     | Raise _ => True
     end.
Proof.
  repeat split.
  unfold current_cpu at 1.
  repeat match goal with |- context [if ?b then _ else _] => destruct b end;
    [reflexivity .. | exact I].
Qed.

(** ** Blob fetcher *)

(** What a call of the blob fetcher does, whatever its arguments. *)
Lemma download_from_google_storage_run
    (h : Host) (w : World) (s : state)
    (bucket : string) (sha_file sha1 : option string)
    (extract : bool) (output : option string) :
  let argv := download_args h bucket sha_file sha1 extract output in
  let p := run_process w (trace s) argv None None in
  download_from_google_storage h w bucket sha_file sha1 extract output s
  = (if returncode p =? 0 then Ok tt
     else Raise (CalledProcessError (returncode p) argv),
     extend s [Spawn argv None None]).
Proof.
  intros argv p.
  unfold download_from_google_storage, check_call, bind, run. fold argv p.
  now destruct (returncode p =? 0).
Qed.

(** C1, as amended. The blob fetcher does not check how many of the content
    identity and the hash-pointer file are supplied: in every call, with
    both, one or neither, it starts the retrieval client once with the
    arguments it built, and it fails exactly when that client exits with a
    non-zero status, with the error carrying that status. *)
Theorem download_from_google_storage_always_spawns
    (h : Host) (w : World) (s : state)
    (bucket : string) (sha_file sha1 : option string)
    (extract : bool) (output : option string) :
  let argv := download_args h bucket sha_file sha1 extract output in
  let p := run_process w (trace s) argv None None in
  download_from_google_storage h w bucket sha_file sha1 extract output s
  = (if returncode p =? 0 then Ok tt
     else Raise (CalledProcessError (returncode p) argv),
     extend s [Spawn argv None None]).
Proof. exact (download_from_google_storage_run h w s bucket sha_file sha1 extract output). Qed.

(** C1, the claim as stated fails: with both the identity and the hash file
    supplied, and with neither, the call is not refused; the retrieval
    client is started (with both on its command line, or with neither) and
    the call returns normally. *)
Lemma download_from_google_storage_not_refused :
  let both := download_from_google_storage linux_x64 (steady 0 EmptyString)
                "chromium-nodejs" (Some "node.tar.gz.sha1") (Some "0123abcd")
                true None start in
  let neither := download_from_google_storage linux_x64 (steady 0 EmptyString)
                   "chromium-nodejs" None None true None start in
  ~ refused start both /\ ~ refused start neither
  /\ both = (Ok tt, extend start
               [Spawn [ "/usr/bin/python3";
                        "third_party/depot_tools/download_from_google_storage.py";
                        "--no_resume"; "--no_auth"; "--bucket"; "chromium-nodejs";
                        "0123abcd"; "-s"; "node.tar.gz.sha1"; "--extract" ]
                  None None])
  /\ neither = (Ok tt, extend start
                  [Spawn [ "/usr/bin/python3";
                           "third_party/depot_tools/download_from_google_storage.py";
                           "--no_resume"; "--no_auth"; "--bucket"; "chromium-nodejs";
                           "--extract" ]
                     None None]).
Proof.
  cbv zeta. repeat split.
  - intros [[e He] _]. discriminate He.
  - intros [[e He] _]. discriminate He.
Qed.

(** ** Package installer *)

(** C6. When the package-store client exits with a non-zero status, its
    captured standard output and standard error are printed as they are,
    the call raises the install failure, and nothing else is done; when it
    exits with zero, the call returns normally and prints nothing. *)
Theorem cipd_surfaces_failure
    (h : Host) (w : World) (s : state) (root package version os : string)
    (Hos : current_os h = Ok os) :
  let argv := [ if String.eqb os "win" then "cipd.bat" else "cipd";
                "ensure"; "-root"; root; "-ensure-file"; "-" ] in
  let input := Some (package +:+ " " +:+ version) in
  let p := run_process w (trace s) argv None input in
  cipd h w root package version s
  = if returncode p =? 0
    then (Ok tt, extend s [Spawn argv None input])
    else (Raise (ValueError "cipd failed."),
          extend s [ Spawn argv None input;
                     Stdout (p_stdout p +:+ LF);
                     Stdout (p_stderr p +:+ LF) ]).
Proof.
  intros argv input p.
  unfold cipd, bind, lift, run. rewrite Hos. fold argv input p.
  destruct (returncode p =? 0); simpl; [reflexivity |].
  unfold extend; simpl. now rewrite <- !app_assoc.
Qed.

Lemma cipd_surfaces_failure_witness :
  cipd linux_x64 (steady 1 "no such package") "third_party/ninja"
       "infra/3pp/tools/ninja/${platform}" "version:3" start
  = (Raise (ValueError "cipd failed."),
     extend start
       [ Spawn [ "cipd"; "ensure"; "-root"; "third_party/ninja";
                 "-ensure-file"; "-" ]
           None (Some "infra/3pp/tools/ninja/${platform} version:3");
         Stdout ("no such package" +:+ LF);
         Stdout ("no such package" +:+ LF) ]).
Proof.
  exact (cipd_surfaces_failure linux_x64 (steady 1 "no such package") start
           "third_party/ninja" "infra/3pp/tools/ninja/${platform}" "version:3"
           "linux" eq_refl).
Defined.

(** ** Environment materializer *)

(** What the environment materializer leaves behind. *)
Lemma add_depot_tools_to_path_overlay
    (h : Host) (s : state) (src_dir old_path : string)
    (Hpath : environ s !! "PATH" = Some old_path) :
  add_depot_tools_to_path h src_dir s
  = (Ok tt, {| environ := overlay h src_dir old_path ∪ environ s;
               trace := trace s |}).
Proof.
  unfold add_depot_tools_to_path, bind, setenv, getenv. simpl.
  rewrite !lookup_insert_ne by discriminate. rewrite Hpath.
  f_equal. f_equal.
  apply map_eq. intros k. unfold overlay. simpl.
  rewrite lookup_union, !lookup_insert, lookup_empty.
  repeat case_decide; simplify_eq; try reflexivity.
  all: match goal with |- _ = _ ∪ ?o => now destruct o end.
Qed.

(** C7, as amended. On every platform, provided the search path is defined
    in the environment, the environment materializer lays one overlay over
    the environment and does nothing else. The overlay holds the
    auto-update flag of the package-store client, the build-tooling path,
    the search path with the two vendored tool directories in front of its
    old value, and also the Windows toolchain switch, the toolchain base URL
    and the two fixed hash constants: none of them depends on the host
    OS. *)
Theorem add_depot_tools_to_path_sets_overlay
    (h : Host) (s : state) (src_dir old_path : string)
    (Hpath : environ s !! "PATH" = Some old_path) :
  let env' := overlay h src_dir old_path ∪ environ s in
  add_depot_tools_to_path h src_dir s
  = (Ok tt, {| environ := env'; trace := trace s |})
  /\ env' !! "DEPOT_TOOLS_UPDATE" = Some "0"
  /\ env' !! "CHROMIUM_BUILDTOOLS_PATH"
     = Some (os_path_join h (os_path_abspath h src_dir) "buildtools")
  /\ env' !! "PATH"
     = Some (PyStr.join (os_pathsep h)
               [ os_path_join h (os_path_join h src_dir "third_party") "ninja";
                 os_path_join h (os_path_join h (ROOT_DIR h) "vendor")
                   "depot_tools";
                 old_path ])
  /\ env' !! "DEPOT_TOOLS_WIN_TOOLCHAIN" = Some "1"
  /\ env' !! "DEPOT_TOOLS_WIN_TOOLCHAIN_BASE_URL"
     = Some "https://dev-cdn.electronjs.org/windows-toolchains/_"
  /\ env' !! "GYP_MSVS_HASH_27370823e7" = Some "28622d16b1"
  /\ env' !! "GYP_MSVS_HASH_7393122652" = Some "3ba76c5c20".
Proof.
  intros env'. split.
  - exact (add_depot_tools_to_path_overlay h s src_dir old_path Hpath).
  - unfold env'. rewrite !lookup_union. repeat split.
    all: match goal with
         | |- ?l ∪ _ = Some ?v =>
             assert (l = Some v) as -> by (vm_compute; reflexivity)
         end;
         match goal with |- _ ∪ ?o = _ => now destruct o end.
Qed.

Lemma add_depot_tools_to_path_sets_overlay_witness :
  let env' := overlay linux_x64 "/work/src" "/usr/bin" ∪ environ start in
  add_depot_tools_to_path linux_x64 "/work/src" start
  = (Ok tt, {| environ := env'; trace := [] |})
  /\ env' !! "DEPOT_TOOLS_UPDATE" = Some "0"
  /\ env' !! "CHROMIUM_BUILDTOOLS_PATH" = Some "/work/src/buildtools"
  /\ env' !! "PATH"
     = Some "/work/src/third_party/ninja:/work/vendor/depot_tools:/usr/bin"
  /\ env' !! "DEPOT_TOOLS_WIN_TOOLCHAIN" = Some "1"
  /\ env' !! "DEPOT_TOOLS_WIN_TOOLCHAIN_BASE_URL"
     = Some "https://dev-cdn.electronjs.org/windows-toolchains/_"
  /\ env' !! "GYP_MSVS_HASH_27370823e7" = Some "28622d16b1"
  /\ env' !! "GYP_MSVS_HASH_7393122652" = Some "3ba76c5c20".
Proof.
  exact (add_depot_tools_to_path_sets_overlay linux_x64 start "/work/src"
           "/usr/bin" eq_refl).
Defined.

(** C7, the claim as stated fails: on a linux host, where none of the three
    Windows toolchain variables is defined beforehand, the call defines all
    three. *)
Lemma add_depot_tools_to_path_windows_vars_on_linux :
  let env' := environ (snd (add_depot_tools_to_path linux_x64 "/work/src" start)) in
  current_os linux_x64 = Ok "linux"
  /\ environ start !! "DEPOT_TOOLS_WIN_TOOLCHAIN_BASE_URL" = None
  /\ environ start !! "GYP_MSVS_HASH_27370823e7" = None
  /\ environ start !! "GYP_MSVS_HASH_7393122652" = None
  /\ env' !! "DEPOT_TOOLS_WIN_TOOLCHAIN_BASE_URL"
     = Some "https://dev-cdn.electronjs.org/windows-toolchains/_"
  /\ env' !! "GYP_MSVS_HASH_27370823e7" = Some "28622d16b1"
  /\ env' !! "GYP_MSVS_HASH_7393122652" = Some "3ba76c5c20".
Proof. cbv zeta. repeat split; vm_compute; reflexivity. Qed.

(** ** Node download *)

Lemma host_cpu_unbound (h : Host) (host_os node_version : string) :
  download_nodejs_locals host_os node_version !! "host_cpu" = None
  /\ module_globals h !! "host_cpu" = None.
Proof. split; vm_compute; reflexivity. Qed.

(** C9. When the linux node marker file exists and the host OS is mac, the
    call downloads the linux node archive and then, building the name of
    the mac hash file, looks up host_cpu, which is bound neither in the
    function nor in the module: once the linux download has succeeded the
    call raises a NameError for host_cpu, and the mac node download is
    never started. *)
Theorem download_nodejs_mac_name_error
    (h : Host) (w : World) (s : state) (content node_version : string)
    (Hmarker : path_exists w (trace s)
                 "third_party/node/linux/node-linux-x64.tar.gz.sha1" = true)
    (Hdeps : read_text w (trace s) "DEPS" = Some content)
    (Hmatch : re_search node_version_pattern content = Some node_version)
    (Hlinux : returncode
                (run_process w (trace s)
                   (download_args h ("chromium-nodejs/" +:+ node_version)
                      (Some "third_party/node/linux/node-linux-x64.tar.gz.sha1")
                      None true None) None None) = 0) :
  download_nodejs h w "mac" s
  = (Raise (NameError "host_cpu"),
     extend s
       [ Spawn (download_args h ("chromium-nodejs/" +:+ node_version)
                  (Some "third_party/node/linux/node-linux-x64.tar.gz.sha1")
                  None true None) None None ]).
Proof.
  unfold download_nodejs, bind at 1. unfold exists_. rewrite Hmarker.
  unfold bind at 1. unfold search_pattern. rewrite Hdeps, Hmatch.
  unfold bind at 1.
  rewrite download_from_google_storage_run. cbv zeta.
  rewrite Hlinux. simpl.
  unfold bind, load_name.
  destruct (host_cpu_unbound h "mac" node_version) as [-> ->].
  reflexivity.
Qed.

Lemma download_nodejs_mac_name_error_witness :
  download_nodejs mac_arm64 (steady 0 EmptyString) "mac" start
  = (Raise (NameError "host_cpu"),
     extend start
       [ Spawn [ "/usr/bin/python3";
                 "third_party/depot_tools/download_from_google_storage.py";
                 "--no_resume"; "--no_auth";
                 "--bucket"; "chromium-nodejs/20.11.0";
                 "-s"; "third_party/node/linux/node-linux-x64.tar.gz.sha1";
                 "--extract" ] None None ]).
Proof.
  exact (download_nodejs_mac_name_error mac_arm64 (steady 0 EmptyString) start
           "'src/third_party/node': chromium-nodejs/20.11.0," "20.11.0"
           eq_refl eq_refl eq_refl eq_refl).
Defined.

(** With the marker file present the call for a mac host never returns
    normally, whatever the earlier steps do. *)
Lemma download_nodejs_mac_never_completes
    (h : Host) (w : World) (s : state) :
  path_exists w (trace s)
    "third_party/node/linux/node-linux-x64.tar.gz.sha1" = true ->
  exists e, fst (download_nodejs h w "mac" s) = Raise e.
Proof.
  intros Hmarker.
  unfold download_nodejs, bind at 1. unfold exists_. rewrite Hmarker.
  unfold bind at 1. unfold search_pattern.
  destruct (read_text w (trace s) "DEPS") as [content |]; [| eauto].
  destruct (re_search node_version_pattern content) as [v |]; [| eauto].
  unfold bind at 1. rewrite download_from_google_storage_run. cbv zeta.
  destruct (returncode _ =? 0); [| eauto].
  simpl. unfold bind, load_name.
  destruct (host_cpu_unbound h "mac" v) as [-> ->]. simpl. eauto.
Qed.

(** ** gn_gen *)

Lemma for_each_lines (s : state) (l : list string) :
  for_each l
    (fun line =>
       if negb (PyStr.contains ".gclient_entries missing" line)
       then print (PyStr.strip line)
       else ret tt) s
  = (Ok tt,
     extend s (map (fun line => Stdout (PyStr.strip line +:+ LF))
                   (List.filter shown l))).
Proof.
  revert s. induction l as [| line l IH]; intros s.
  - destruct s. unfold extend. simpl. now rewrite app_nil_r.
  - simpl. unfold bind. unfold shown at 1.
    destruct (negb (PyStr.contains ".gclient_entries missing" line)); simpl.
    + rewrite IH. unfold extend. simpl. now rewrite <- app_assoc.
    + apply IH.
Qed.

(** What a call of gn_gen does. *)
Lemma gn_gen_run
    (h : Host) (w : World) (s : state)
    (src_dir out_dir os : string) (args : list string)
    (Hos : current_os h = Ok os) :
  let argv := [ if String.eqb os "win" then "gn.bat" else "gn";
                "gen"; out_dir; "--args=" +:+ PyStr.join " " args ] in
  let p := run_process w (trace s) argv (Some src_dir) None in
  gn_gen h w src_dir out_dir args s
  = (Ok tt,
     extend s
       (Spawn argv (Some src_dir) None
        :: map (fun line => Stdout (PyStr.strip line +:+ LF))
               (List.filter shown (PyStr.lines (p_stdout p))))).
Proof.
  intros argv p.
  unfold gn_gen, bind at 1. unfold lift. rewrite Hos.
  unfold bind at 1. unfold run. fold argv p.
  unfold bind. rewrite for_each_lines.
  unfold extend. simpl. now rewrite <- app_assoc.
Qed.

(** C10. Whatever the exit status of the gn child process, gn_gen returns
    normally: the status is never looked at. Of the lines the child wrote,
    those containing the gclient-entries notice are dropped and every other
    line is printed with the white space at its ends removed, in order. *)
Theorem gn_gen_ignores_exit_status
    (h : Host) (w : World) (s : state)
    (src_dir out_dir os : string) (args : list string)
    (Hos : current_os h = Ok os) :
  let argv := [ if String.eqb os "win" then "gn.bat" else "gn";
                "gen"; out_dir; "--args=" +:+ PyStr.join " " args ] in
  let p := run_process w (trace s) argv (Some src_dir) None in
  gn_gen h w src_dir out_dir args s
  = (Ok tt,
     extend s
       (Spawn argv (Some src_dir) None
        :: map (fun line => Stdout (PyStr.strip line +:+ LF))
               (List.filter shown (PyStr.lines (p_stdout p))))).
Proof. exact (gn_gen_run h w s src_dir out_dir os args Hos). Qed.

Lemma gn_gen_ignores_exit_status_witness :
  gn_gen linux_x64
    (steady 1 ("ERROR at //BUILD.gn:1" +:+ LF
               +:+ ".gclient_entries missing, .gclient file in parent" +:+ LF
               +:+ "   Unknown function.  "))
    "/work/src" "out/Release" [ "is_debug=false"; "is_component_build=true" ] start
  = (Ok tt,
     extend start
       [ Spawn [ "gn"; "gen"; "out/Release";
                 "--args=is_debug=false is_component_build=true" ]
           (Some "/work/src") None;
         Stdout ("ERROR at //BUILD.gn:1" +:+ LF);
         Stdout ("Unknown function." +:+ LF) ]).
Proof.
  exact (gn_gen_ignores_exit_status linux_x64
           (steady 1 ("ERROR at //BUILD.gn:1" +:+ LF
                      +:+ ".gclient_entries missing, .gclient file in parent" +:+ LF
                      +:+ "   Unknown function.  "))
           start "/work/src" "out/Release" "linux"
           [ "is_debug=false"; "is_component_build=true" ] eq_refl).
Defined.

(** The environment survives a call of gn_gen. *)
Lemma gn_gen_environ
    (h : Host) (w : World) (s : state)
    (src_dir out_dir os : string) (args : list string) :
  current_os h = Ok os ->
  fst (gn_gen h w src_dir out_dir args s) = Ok tt
  /\ environ (snd (gn_gen h w src_dir out_dir args s)) = environ s.
Proof.
  intros Hos. rewrite (gn_gen_run h w s src_dir out_dir os args Hos).
  now split.
Qed.

Lemma seq_ok {A} (m : M A) (k : M unit) :
  (forall s, exists a, fst (m s) = Ok a) ->
  (forall s, fst (k s) = Ok tt) ->
  forall s, fst (bind m (fun _ => k) s) = Ok tt.
Proof.
  intros Hm Hk s. unfold bind. destruct (Hm s) as [a Ha].
  destruct (m s) as [[a' | e] s1]; [apply Hk | discriminate Ha].
Qed.

(** The script gn_gen.py as a whole: on a supported platform with a search
    path in the environment it runs to its end, whatever the exit statuses
    of the gn child processes it started. *)
Lemma gn_main_completes
    (h : Host) (w : World) (cli : GnCli) (s : state) (os cpu old_path : string) :
  current_os h = Ok os -> current_cpu h = Ok cpu ->
  environ s !! "PATH" = Some old_path ->
  fst (gn_main h w cli s) = Ok tt.
Proof.
  intros Hos Hcpu Hpath. unfold gn_main.
  unfold bind at 1. unfold lift at 1. rewrite Hcpu.
  unfold bind at 1. unfold lift at 1. rewrite Hos. cbv zeta.
  unfold bind at 1.
  rewrite (add_depot_tools_to_path_overlay h s
             (default (os_path_join h (ROOT_DIR h) "src") (gn_src_dir cli))
             old_path Hpath).
  assert (Hwhen : forall b src out args s1,
             fst (when b (gn_gen h w src out args) s1) = Ok tt).
  { intros [] src out args s1; [| reflexivity].
    now apply (gn_gen_environ h w s1 src out os args). }
  generalize {| environ := overlay h (default (os_path_join h (ROOT_DIR h) "src")
                                      (gn_src_dir cli)) old_path ∪ environ s;
                trace := trace s |}.
  repeat (apply seq_ok; [intros s1; exists tt; apply Hwhen |]).
  intros s1. apply Hwhen.
Qed.

(** ** Which events a computation can add *)

Section Emits.

Context (h : Host) (w : World) (f : event -> bool).

Lemma emits_ret {A} (a : A) : emits f (ret a).
Proof. intros s. exists []. simpl. now rewrite app_nil_r. Qed.

Lemma emits_raise {A} (e : exn) : emits f (@raise A e).
Proof. intros s. exists []. simpl. now rewrite app_nil_r. Qed.

Lemma emits_lift {A} (r : result A) : emits f (lift r).
Proof. intros s. exists []. simpl. now rewrite app_nil_r. Qed.

Lemma emits_bind {A B} (m : M A) (k : A -> M B) :
  emits f m -> (forall a, emits f (k a)) -> emits f (bind m k).
Proof.
  intros Hm Hk s. unfold bind.
  destruct (Hm s) as (evs1 & Ht1 & Hf1).
  destruct (m s) as [[a | e] s1]; simpl in Ht1.
  - destruct (Hk a s1) as (evs2 & Ht2 & Hf2).
    exists (evs1 ++ evs2)%list. split.
    + now rewrite Ht2, Ht1, app_assoc.
    + rewrite forallb_app. now rewrite Hf1, Hf2.
  - exists evs1. now split.
Qed.

Lemma emits_bind_lift {A B} (r : result A) (k : A -> M B) :
  (forall a, r = Ok a -> emits f (k a)) -> emits f (bind (lift r) k).
Proof.
  intros Hk s. unfold bind, lift. destruct r as [a | e].
  - now apply Hk.
  - exists []. simpl. now rewrite app_nil_r.
Qed.

Lemma emits_emit (e : event) : f e = true -> emits f (emit e).
Proof. intros He s. exists [e]. simpl. now rewrite He. Qed.

Lemma emits_print (text : string) :
  (forall t, f (Stdout t) = true) -> emits f (print text).
Proof. intros Hp. now apply emits_emit. Qed.

Lemma emits_print_noend (text : string) :
  (forall t, f (Stdout t) = true) -> emits f (print_noend text).
Proof. intros Hp. now apply emits_emit. Qed.

Lemma emits_setenv (k v : string) : emits f (setenv k v).
Proof. intros s. exists []. simpl. now rewrite app_nil_r. Qed.

Lemma emits_getenv (k : string) : emits f (getenv k).
Proof.
  intros s. exists []. unfold getenv.
  destruct (environ s !! k); simpl; now rewrite app_nil_r.
Qed.

Lemma emits_isdir (path : string) : emits f (isdir w path).
Proof. intros s. exists []. simpl. now rewrite app_nil_r. Qed.

Lemma emits_exists (path : string) : emits f (exists_ w path).
Proof. intros s. exists []. simpl. now rewrite app_nil_r. Qed.

Lemma emits_when (b : bool) (m : M unit) :
  (b = true -> emits f m) -> emits f (when b m).
Proof. destruct b; simpl; intros H; [now apply H | apply emits_ret]. Qed.

Lemma emits_for_each {A} (l : list A) (body : A -> M unit) :
  (forall x, emits f (body x)) -> emits f (for_each l body).
Proof.
  intros Hb. induction l as [| x l IH]; simpl.
  - apply emits_ret.
  - apply emits_bind; [apply Hb | intros _; exact IH].
Qed.

Lemma emits_run (argv : list string) (cwd input : option string) :
  f (Spawn argv cwd input) = true -> emits f (run w argv cwd input).
Proof. intros He s. exists [Spawn argv cwd input]. simpl. now rewrite He. Qed.

Lemma emits_check_call (argv : list string) :
  f (Spawn argv None None) = true -> emits f (check_call w argv).
Proof.
  intros He. apply emits_bind; [now apply emits_run |].
  intros p. destruct (returncode p =? 0); [apply emits_ret | apply emits_raise].
Qed.

Lemma emits_search_pattern (filename : string) (p : pattern) :
  emits f (search_pattern w filename p).
Proof.
  intros s. exists []. unfold search_pattern.
  destruct (read_text w (trace s) filename) as [content |]; simpl;
    [destruct (re_search p content) |]; simpl; now rewrite app_nil_r.
Qed.

Lemma emits_download_and_extract (url path : string) :
  (forall t, f (Stdout t) = true) -> f (Fetch url path) = true ->
  emits f (download_and_extract w url path).
Proof.
  intros Hp Hf s. unfold download_and_extract.
  destruct (archive w (trace s) url) as [members ok].
  revert s. fold (emits f
    (emit (Fetch url path);;;
     for_each (replicate (members / 5000)%nat ()) (fun _ => print_noend ".");;;
     (if ok then ret () else raise (OSError url)))).
  apply emits_bind; [now apply emits_emit | intros _].
  apply emits_bind.
  - apply emits_for_each. intros _. now apply emits_print_noend.
  - intros _. destruct ok; [apply emits_ret | apply emits_raise].
Qed.

(** From what a computation can add to what a finished run did add. *)
Lemma emits_step {A B} (m : M A) (k : A -> M B)
    (s0 s s' : state) (b : B) :
  (exists evs, trace s = (trace s0 ++ evs)%list /\ forallb f evs = true) ->
  emits f m ->
  bind m k s = (Ok b, s') ->
  exists a s1,
    (exists evs, trace s1 = (trace s0 ++ evs)%list /\ forallb f evs = true)
    /\ k a s1 = (Ok b, s').
Proof.
  intros (evs0 & Ht0 & Hf0) Hm Hrun. unfold bind in Hrun.
  destruct (Hm s) as (evs1 & Ht1 & Hf1).
  destruct (m s) as [[a | e] s1]; [| discriminate Hrun].
  exists a, s1. split; [| exact Hrun].
  exists (evs0 ++ evs1)%list. simpl in Ht1. split.
  - now rewrite Ht1, Ht0, app_assoc.
  - rewrite forallb_app. now rewrite Hf0, Hf1.
Qed.

End Emits.

(** ** The orchestrator *)

(** Takes a computation apart along its binds and branches, leaving the
    conditions on the single events. *)
Ltac emits_go :=
  repeat first
    [ apply emits_ret | apply emits_raise | apply emits_isdir | apply emits_exists
    | apply emits_setenv | apply emits_getenv | apply emits_search_pattern
    | apply emits_bind_lift; intros ? ?
    | apply emits_lift
    | apply emits_emit | apply emits_print | apply emits_print_noend
    | apply emits_check_call | apply emits_run | apply emits_when; intros ?
    | apply emits_bind; [| intros ?]
    | match goal with |- emits _ (if ?b then _ else _) => destruct b eqn:? end
    | match goal with |- emits _ (match ?o with _ => _ end) => destruct o eqn:? end ].

Ltac unfold_program :=
  unfold provision, install_sysroots, install_host_tools, install_common_tools,
    download_nodejs, download_gcs_dep, download_from_google_storage, cipd,
    read_var_from_deps, add_depot_tools_to_path, load_name; cbv zeta.


Lemma plain_print (h : Host) (t : string) : plain h (Stdout t) = true.
Proof. reflexivity. Qed.

Ltac same_os :=
  repeat match goal with
         | H1 : current_os ?h = Ok _, H2 : current_os ?h = Ok _ |- _ =>
             rewrite H1 in H2; injection H2 as H2; subst
         end.


Lemma plain_gcs_download (h : Host) (x o : string) :
  plain h (Spawn (download_args h "chromium-nodejs" None (Some x) true (Some o))
             None None) = true.
Proof.
  unfold plain, download_args. destruct x as [| c x], o as [| d o]; simpl;
    unfold win_specific, mac_specific, arg_is, arg_starts; simpl;
    rewrite ?andb_false_r; try reflexivity.
Qed.

Lemma download_nodejs_linux_plain (h : Host) (w : World) :
  emits (plain h) (download_nodejs h w "linux").
Proof.
  unfold_program. emits_go; try reflexivity.
  all: try (intros; reflexivity).
  apply plain_gcs_download.
Qed.

Lemma install_common_tools_plain (h : Host) (w : World) :
  current_os h = Ok "linux" ->
  emits (plain h) (install_common_tools h w).
Proof.
  intros Hos. unfold_program. emits_go; same_os; try reflexivity.
  all: try (intros; reflexivity).
Qed.

Lemma bind_ok_inv {A B} (m : M A) (k : A -> M B) (s s' : state) (b : B) :
  bind m k s = (Ok b, s') ->
  exists a s1, m s = (Ok a, s1) /\ k a s1 = (Ok b, s').
Proof.
  unfold bind. destruct (m s) as [[a | e] s1]; [eauto | discriminate].
Qed.

Lemma install_host_tools_linux
    (h : Host) (w : World) (args : Args) (hc : string) (s s' : state) :
  current_os h = Ok "linux" ->
  install_host_tools h w args "linux" hc s = (Ok tt, s') ->
  exists evs,
    trace s' = (trace s ++ evs ++ rc_step h args)%list
    /\ forallb (plain h) evs = true.
Proof.
  intros Hos Hrun. unfold install_host_tools in Hrun.
  assert (H0 : exists evs, trace s = (trace s ++ evs)%list
                           /\ forallb (plain h) evs = true).
  { exists []. now rewrite app_nil_r. }
  eapply emits_step in Hrun; [| exact H0 |].
  2:{ unfold_program. emits_go; try reflexivity. all: intros; reflexivity. }
  destruct Hrun as (gn_version & s1 & H1 & Hrun).
  change (String.eqb "linux" "linux") with true in Hrun. cbv iota in Hrun.
  eapply emits_step in Hrun; [| exact H1 |].
  2:{ unfold_program. emits_go; same_os; try reflexivity. all: intros; reflexivity. }
  destruct Hrun as ([] & s2 & (evs & Ht & Hf) & Hrun).
  exists evs. split; [| exact Hf]. unfold rc_step.
  destruct (String.eqb (target_os args) "win"); simpl in Hrun.
  - rewrite download_from_google_storage_run in Hrun. cbv zeta in Hrun.
    injection Hrun as _ <-. simpl. now rewrite Ht, app_assoc.
  - injection Hrun as <-. now rewrite app_nil_r.
Qed.

Lemma install_sysroots_linux
    (h : Host) (w : World) (args : Args) (hc : string) (s s' : state) :
  install_sysroots h w args "linux" hc s = (Ok tt, s') ->
  trace s' = (trace s ++ sysroot_steps h hc (target_cpu args))%list.
Proof.
  unfold install_sysroots, sysroot_steps, when, check_call, bind, run. simpl.
  destruct (returncode _ =? 0); [| discriminate].
  destruct (String.eqb hc (target_cpu args)); simpl.
  - now intros [= <-].
  - destruct (returncode _ =? 0); [| discriminate].
    intros [= <-]. simpl. now rewrite <- app_assoc.
Qed.

Lemma acquire_source_plain (h : Host) (w : World) (args : Args) :
  emits (plain h) (acquire_source h w args).
Proof.
  unfold acquire_source. cbv zeta. emits_go; try reflexivity.
  all: try (intros; reflexivity).
  apply emits_download_and_extract; intros; reflexivity.
Qed.

Ltac step H Hinv :=
  eapply emits_step in H;
  [ | exact Hinv
    | unfold_program; emits_go; same_os; try reflexivity;
      try (intros; reflexivity) ];
  clear Hinv;
  destruct H as (? & ? & Hinv & H).

Lemma provision_linux_completed
    (h : Host) (w : World) (args : Args) (hc : string) (s0 s s' : state)
    (r : option Z) :
  current_os h = Ok "linux" -> current_cpu h = Ok hc ->
  (exists evs, trace s = (trace s0 ++ evs)%list
               /\ forallb (plain h) evs = true) ->
  provision h w args s = (Ok r, s') ->
  r = None
  /\ exists evs,
       trace s' = (trace s0 ++ evs ++ rc_step h args
                   ++ sysroot_steps h hc (target_cpu args))%list
       /\ forallb (plain h) evs = true.
Proof.
  intros Hos Hcpu H0 Hrun. unfold provision in Hrun.
  unfold bind at 1 in Hrun. unfold lift at 1 in Hrun. rewrite Hos in Hrun.
  unfold bind at 1 in Hrun. unfold lift at 1 in Hrun. rewrite Hcpu in Hrun.
  change (String.eqb "linux" "win") with false in Hrun.
  do 6 step Hrun H0.
  eapply emits_step in Hrun;
    [| exact H0 | apply download_nodejs_linux_plain ].
  clear H0. destruct Hrun as (? & ? & H0 & Hrun).
  eapply emits_step in Hrun;
    [| exact H0 | now apply install_common_tools_plain ].
  clear H0. destruct Hrun as (? & s1 & (evs1 & Ht1 & Hf1) & Hrun).
  apply bind_ok_inv in Hrun. destruct Hrun as ([] & s2 & Hhost & Hrun).
  apply bind_ok_inv in Hrun. destruct Hrun as ([] & s3 & Hsys & Hrun).
  injection Hrun as <- <-.
  apply install_host_tools_linux in Hhost; [| exact Hos].
  destruct Hhost as (evs2 & Ht2 & Hf2).
  apply install_sysroots_linux in Hsys.
  split; [reflexivity |].
  exists (evs1 ++ evs2)%list. split.
  - rewrite Hsys, Ht2, Ht1. now rewrite <- !app_assoc.
  - rewrite forallb_app. now rewrite Hf1, Hf2.
Qed.

Lemma plain_no_steps (h : Host) (evs : list event) :
  forallb (plain h) evs = true ->
  sysroot_archs evs = []
  /\ existsb mac_specific evs = false
  /\ existsb (win_specific h) evs = false.
Proof.
  induction evs as [| e evs IH]; simpl; [auto |].
  intros [He Hevs]%andb_prop. destruct (IH Hevs) as (IH1 & IH2 & IH3).
  unfold plain in He. apply andb_prop in He as [[Hw Hm]%andb_prop Hs].
  apply negb_true_iff in Hw, Hm.
  rewrite Hw, Hm, IH2, IH3. unfold sysroot_archs in *. simpl.
  destruct (sysroot_install e); [discriminate |]. now rewrite IH1.
Qed.

Lemma rc_step_steps (h : Host) (args : Args) :
  sysroot_archs (rc_step h args) = []
  /\ existsb mac_specific (rc_step h args) = false
  /\ existsb (win_specific h) (rc_step h args)
     = String.eqb (target_os args) "win".
Proof.
  unfold rc_step. destruct (String.eqb (target_os args) "win"); repeat split.
Qed.

Lemma sysroot_steps_steps (h : Host) (hc tc : string) :
  sysroot_archs (sysroot_steps h hc tc)
  = hc :: (if String.eqb hc tc then [] else [tc])
  /\ existsb mac_specific (sysroot_steps h hc tc) = false
  /\ existsb (win_specific h) (sysroot_steps h hc tc) = false.
Proof.
  unfold sysroot_steps. destruct (String.eqb hc tc); repeat split.
Qed.

Lemma sysroot_archs_app (l1 l2 : list event) :
  sysroot_archs (l1 ++ l2) = (sysroot_archs l1 ++ sysroot_archs l2)%list.
Proof. unfold sysroot_archs. apply omap_app. Qed.

(** C2, as amended. For every run on a linux host that runs to its end
    (the arguments name a source, every step succeeds), the orchestrator
    installs a sysroot for the host CPU and, exactly when the target CPU
    differs from it, one more for the target CPU, in that order and no
    other sysroot; no Mac-specific step is executed; and a Windows-specific
    step is executed exactly when the target OS is win (the download of the
    resource compiler). *)
Theorem linux_run_installs_sysroots
    (h : Host) (w : World) (cli : Cli) (s s' : state) (hc : string)
    (Hos : current_os h = Ok "linux")
    (Hcpu : current_cpu h = Ok hc)
    (Hrun : main h w cli s = (Ok None, s')) :
  let tc := default hc (cli_target_cpu cli) in
  let tos := default "linux" (cli_target_os cli) in
  exists evs,
    trace s' = (trace s ++ evs)%list
    /\ sysroot_archs evs = hc :: (if String.eqb hc tc then [] else [tc])
    /\ existsb mac_specific evs = false
    /\ existsb (win_specific h) evs = String.eqb tos "win".
Proof.
  intros tc tos. unfold main in Hrun.
  unfold bind at 1 in Hrun. unfold parse_args in Hrun.
  unfold bind at 1 in Hrun. unfold lift at 1 in Hrun. rewrite Hcpu in Hrun.
  unfold bind at 1 in Hrun. unfold lift at 1 in Hrun. rewrite Hos in Hrun.
  unfold ret at 1 in Hrun. fold tc tos in Hrun.
  set (args := {| revision := _ |}) in Hrun.
  destruct (negb (PyStr.truthy_opt (revision args))
            && negb (PyStr.truthy_opt (tarball_url args))).
  { discriminate Hrun. }
  assert (H0 : exists evs, trace s = (trace s ++ evs)%list
                           /\ forallb (plain h) evs = true).
  { exists []. now rewrite app_nil_r. }
  eapply emits_step in Hrun; [| exact H0 | apply acquire_source_plain ].
  clear H0. destruct Hrun as (stop & s1 & H1 & Hrun).
  destruct stop as [code |]; [discriminate Hrun |].
  eapply provision_linux_completed in Hrun; [| exact Hos | exact Hcpu | exact H1].
  destruct Hrun as (_ & evs & Ht & Hf).
  exists (evs ++ rc_step h args ++ sysroot_steps h hc (target_cpu args))%list.
  split; [exact Ht |].
  destruct (plain_no_steps h evs Hf) as (P1 & P2 & P3).
  destruct (rc_step_steps h args) as (R1 & R2 & R3).
  destruct (sysroot_steps_steps h hc (target_cpu args)) as (S1 & S2 & S3).
  rewrite !sysroot_archs_app, !existsb_app.
  rewrite P1, P2, P3, R1, R2, R3, S1, S2, S3. simpl.
  repeat split. now rewrite orb_false_r.
Qed.

Lemma linux_run_installs_sysroots_witness :
  exists evs,
    trace (snd (main linux_x64 (steady 0 "version:1")
                  (cli_of (Some "120.0.6099.5") (Some "arm") (Some "linux"))
                  start))
    = (trace start ++ evs)%list
    /\ sysroot_archs evs = [ "x64"; "arm" ]
    /\ existsb mac_specific evs = false
    /\ existsb (win_specific linux_x64) evs = false.
Proof.
  apply (linux_run_installs_sysroots linux_x64 (steady 0 "version:1")
           (cli_of (Some "120.0.6099.5") (Some "arm") (Some "linux"))
           start _ "x64" eq_refl eq_refl).
  vm_compute. reflexivity.
Defined.

(** C2, the claim as stated fails on two runs of a linux x64 host. With the
    target OS win the run succeeds and downloads the Windows resource
    compiler, a Windows-specific step. Without a revision and without a
    tarball URL the run stops at once and installs no sysroot. *)
Lemma linux_run_claim_as_stated_fails :
  ~ linux_plan_as_stated linux_x64 "x64" "x64" start
      (main linux_x64 (steady 0 "version:1")
         (cli_of (Some "120.0.6099.5") None (Some "win")) start)
  /\ ~ linux_plan_as_stated linux_x64 "x64" "arm" start
        (main linux_x64 (steady 0 "version:1")
           (cli_of None (Some "arm") None) start).
Proof.
  split; intros (evs & Ht & Hs & Hw & Hm); simpl in Ht; subst evs.
  - vm_compute in Hw. discriminate Hw.
  - vm_compute in Hs. discriminate Hs.
Qed.

Lemma provision_keeps_source (h : Host) (w : World) (args : Args) :
  emits keeps_source (provision h w args).
Proof.
  unfold_program. emits_go; try reflexivity.
  all: intros; reflexivity.
Qed.

Lemma parse_args_keeps_source (h : Host) (cli : Cli) :
  emits keeps_source (parse_args h cli).
Proof. unfold parse_args. cbv zeta. emits_go. Qed.

Lemma bind_congr {A B} (m : M A) (k1 k2 : A -> M B) (s : state) :
  (forall a s1, m s = (Ok a, s1) -> k1 a s1 = k2 a s1) ->
  bind m k1 s = bind m k2 s.
Proof.
  intros Hk. unfold bind. destruct (m s) as [[a | e] s1]; [| reflexivity].
  now apply Hk.
Qed.

Lemma parse_args_inv (h : Host) (cli : Cli) (s s1 : state) (args : Args) :
  parse_args h cli s = (Ok args, s1) ->
  s1 = s
  /\ revision args = cli_revision cli
  /\ tarball_url args = cli_tarball_url cli
  /\ src_dir args
     = default (os_path_join h (ROOT_DIR h) "src") (cli_src_dir cli).
Proof.
  unfold parse_args, bind, lift, ret.
  destruct (current_cpu h); [| discriminate].
  destruct (current_os h); [| discriminate].
  intros [= <- <-]. auto.
Qed.

(** C8, as amended. For every invocation that names a source (a revision or
    a tarball URL) and whose destination source directory already exists,
    the source-tarball step is skipped entirely: the run is exactly the run
    of the later stages on the parsed arguments, and nothing it does is an
    archive download or a rename of the extracted tree. *)
Theorem main_skips_existing_source
    (h : Host) (w : World) (cli : Cli) (s : state)
    (Hsrc : PyStr.truthy_opt (cli_revision cli)
            || PyStr.truthy_opt (cli_tarball_url cli) = true)
    (Hdir : path_isdir w (trace s)
              (default (os_path_join h (ROOT_DIR h) "src") (cli_src_dir cli))
            = true) :
  proceeds_to_provisioning h w cli s
  /\ exists evs,
       trace (snd (main h w cli s)) = (trace s ++ evs)%list
       /\ forallb keeps_source evs = true.
Proof.
  assert (Heq : proceeds_to_provisioning h w cli s).
  { unfold proceeds_to_provisioning, main. apply bind_congr.
    intros args s1 Hparse.
    apply parse_args_inv in Hparse as (-> & Hrev & Hurl & Hsd).
    rewrite Hrev, Hurl. apply orb_prop in Hsrc.
    replace (negb (PyStr.truthy_opt (cli_revision cli))
             && negb (PyStr.truthy_opt (cli_tarball_url cli))) with false
      by (destruct Hsrc as [-> | ->]; simpl; now rewrite ?andb_false_r).
    unfold bind at 1. unfold acquire_source, bind at 1. unfold isdir.
    rewrite Hsd, Hdir. reflexivity. }
  split; [exact Heq |].
  rewrite Heq.
  apply (emits_bind keeps_source); [apply parse_args_keeps_source |].
  intros args. apply provision_keeps_source.
Qed.

Lemma main_skips_existing_source_witness :
  proceeds_to_provisioning linux_x64 (steady 0 "version:1")
    (cli_of (Some "120.0.6099.5") None None) start
  /\ exists evs,
       trace (snd (main linux_x64 (steady 0 "version:1")
                     (cli_of (Some "120.0.6099.5") None None) start))
       = (trace start ++ evs)%list
       /\ forallb keeps_source evs = true.
Proof.
  exact (main_skips_existing_source linux_x64 (steady 0 "version:1")
           (cli_of (Some "120.0.6099.5") None None) start eq_refl eq_refl).
Defined.

(** C8, the claim as stated fails: with the source directory in place but
    neither a revision nor a tarball URL on the command line, the run
    prints the usage error and returns 1; it does not go on to the later
    stages. *)
Lemma main_existing_source_without_revision_stops :
  path_isdir (steady 0 "version:1") (trace start) "/work/src" = true
  /\ main linux_x64 (steady 0 "version:1") (cli_of None None None) start
     = (Ok (Some 1),
        extend start
          [ Stdout ("Must specify either --revision or --tarball-url." +:+ LF) ])
  /\ ~ proceeds_to_provisioning linux_x64 (steady 0 "version:1")
        (cli_of None None None) start.
Proof.
  split; [reflexivity |]. split; [reflexivity |].
  unfold proceeds_to_provisioning. intros H.
  vm_compute in H. discriminate H.
Qed.

(** * Further properties *)

Lemma current_os_unrecognized (h : Host) :
  recognized_platform (sys_platform h) = false ->
  current_os h
  = Raise (ValueError ("Unsupported platform: " +:+ sys_platform h)).
Proof.
  unfold recognized_platform, current_os, PyStr.startswith.
  destruct (String.prefix "linux" (sys_platform h)); [discriminate |].
  destruct (String.prefix "win" (sys_platform h)); [discriminate |].
  destruct (String.eqb (sys_platform h) "darwin"); [discriminate |].
  reflexivity.
Qed.

(** ** build.py *)

(** What a run of build.py does once the environment has a search path, the
    platform is supported and [args.gn] can be read. *)
Lemma build_main_run
    (h : Host) (py : Interp) (w : World) (cli : BuildCli) (s : state)
    (os old_path content : string)
    (Hos : current_os h = Ok os)
    (Hpath : environ s !! "PATH" = Some old_path)
    (Hgn : read_text w (trace s)
             (args_gn_path h py
                (default (os_path_join h (ROOT_DIR h) "src") (build_src_dir cli))
                (default "out/Component" (build_out_dir cli)))
           = Some content) :
  let src_dir := default (os_path_join h (ROOT_DIR h) "src") (build_src_dir cli) in
  let out_dir := default "out/Component" (build_out_dir cli) in
  let argv := ninja_command os out_dir
                (PyStr.contains "use_remoteexec = true" content
                 || PyStr.contains "goma.gn" content) cli in
  let p := run_process w (trace s) argv (Some src_dir) None in
  let env1 := overlay h src_dir old_path ∪ environ s in
  build_main h py w cli s
  = (Ok (if returncode p =? 0 then Finished else Exit (returncode p)),
     {| environ :=
          if String.eqb os "win"
          then <["PYTHONPATH" :=
                   PyStr.join (os_pathsep h)
                     (List.filter (fun path => endswith path "site-packages")
                        (sys_path py))]> env1
          else env1;
        trace := trace s ++ [ Spawn argv (Some src_dir) None ] |}).
Proof.
  cbv zeta. unfold build_main. unfold bind at 1.
  rewrite (add_depot_tools_to_path_overlay h s _ old_path Hpath).
  unfold bind, lift, when, get_gn_config, run. rewrite Hos.
  destruct (String.eqb os "win"); unfold setenv, ret; cbn [trace environ];
    rewrite Hgn; cbn [fst snd trace environ];
    now destruct (returncode _ =? 0).
Qed.

(** X1. The exit status of the build executor becomes the exit status of
    build.py: the script runs to its end when the executor exits with zero
    and leaves through [sys.exit] with the executor's status otherwise. The
    executor is started once, in the source directory, with the output
    directory, the parallelism switch exactly when [args.gn] mentions remote
    execution or goma, then the unknown arguments, then the targets. *)
Theorem build_main_mirrors_exit_status
    (h : Host) (py : Interp) (w : World) (cli : BuildCli) (s : state)
    (os old_path content : string)
    (Hos : current_os h = Ok os)
    (Hpath : environ s !! "PATH" = Some old_path)
    (Hgn : read_text w (trace s)
             (args_gn_path h py
                (default (os_path_join h (ROOT_DIR h) "src") (build_src_dir cli))
                (default "out/Component" (build_out_dir cli)))
           = Some content) :
  let src_dir := default (os_path_join h (ROOT_DIR h) "src") (build_src_dir cli) in
  let out_dir := default "out/Component" (build_out_dir cli) in
  let argv := ninja_command os out_dir
                (PyStr.contains "use_remoteexec = true" content
                 || PyStr.contains "goma.gn" content) cli in
  let p := run_process w (trace s) argv (Some src_dir) None in
  fst (build_main h py w cli s)
  = Ok (if returncode p =? 0 then Finished else Exit (returncode p))
  /\ trace (snd (build_main h py w cli s))
     = (trace s ++ [ Spawn argv (Some src_dir) None ])%list.
Proof.
  cbv zeta.
  rewrite (build_main_run h py w cli s os old_path content Hos Hpath Hgn).
  split; reflexivity.
Qed.

Lemma build_main_mirrors_exit_status_witness :
  fst (build_main linux_x64 posix_interp
         (reading (steady 2 EmptyString) "use_remoteexec = true")
         {| build_targets := []; build_src_dir := None;
            build_out_dir := Some "out/Release";
            build_unknown := [ "-k"; "0" ] |} start)
  = Ok (Exit 2)
  /\ trace (snd (build_main linux_x64 posix_interp
                   (reading (steady 2 EmptyString) "use_remoteexec = true")
                   {| build_targets := []; build_src_dir := None;
                      build_out_dir := Some "out/Release";
                      build_unknown := [ "-k"; "0" ] |} start))
     = [ Spawn [ "autoninja"; "-C"; "out/Release"; "-j"; "200"; "-k"; "0";
                 "views_examples" ] (Some "/work/src") None ].
Proof.
  exact (build_main_mirrors_exit_status linux_x64 posix_interp
           (reading (steady 2 EmptyString) "use_remoteexec = true")
           {| build_targets := []; build_src_dir := None;
              build_out_dir := Some "out/Release";
              build_unknown := [ "-k"; "0" ] |} start
           "linux" "/usr/bin" "use_remoteexec = true"
           eq_refl eq_refl eq_refl).
Defined.

(** X2. build.py exports the module search path for the build only on
    Windows: there PYTHONPATH becomes the entries of [sys.path] that end in
    site-packages, joined by the path separator and in their order; on every
    other host PYTHONPATH is left as it was. *)
Theorem build_main_pythonpath
    (h : Host) (py : Interp) (w : World) (cli : BuildCli) (s : state)
    (os old_path content : string)
    (Hos : current_os h = Ok os)
    (Hpath : environ s !! "PATH" = Some old_path)
    (Hgn : read_text w (trace s)
             (args_gn_path h py
                (default (os_path_join h (ROOT_DIR h) "src") (build_src_dir cli))
                (default "out/Component" (build_out_dir cli)))
           = Some content) :
  environ (snd (build_main h py w cli s)) !! "PYTHONPATH"
  = if String.eqb os "win"
    then Some (PyStr.join (os_pathsep h)
                 (List.filter (fun path => endswith path "site-packages")
                    (sys_path py)))
    else environ s !! "PYTHONPATH".
Proof.
  pose proof (build_main_run h py w cli s os old_path content Hos Hpath Hgn)
    as ->.
  cbn [snd environ]. destruct (String.eqb os "win").
  - apply lookup_insert_eq.
  - rewrite lookup_union.
    assert (overlay h
              (default (os_path_join h (ROOT_DIR h) "src") (build_src_dir cli))
              old_path !! "PYTHONPATH" = None) as -> by (vm_compute; reflexivity).
    now destruct (environ s !! "PYTHONPATH").
Qed.

Lemma build_main_pythonpath_witness :
  environ (snd (build_main win_x64
                  {| os_path_isabs := String.prefix "C:/";
                     sys_path := [ "C:/work";
                                   "C:/Python/Lib/site-packages";
                                   "C:/Python/Lib";
                                   "C:/Users/dev/site-packages" ] |}
                  (steady 0 EmptyString)
                  {| build_targets := [ "chrome" ]; build_src_dir := None;
                     build_out_dir := None; build_unknown := [] |} start))
    !! "PYTHONPATH"
  = Some "C:/Python/Lib/site-packages;C:/Users/dev/site-packages".
Proof.
  exact (build_main_pythonpath win_x64
           {| os_path_isabs := String.prefix "C:/";
              sys_path := [ "C:/work";
                            "C:/Python/Lib/site-packages";
                            "C:/Python/Lib";
                            "C:/Users/dev/site-packages" ] |}
           (steady 0 EmptyString)
           {| build_targets := [ "chrome" ]; build_src_dir := None;
              build_out_dir := None; build_unknown := [] |} start
           "win" "/usr/bin" "'src/third_party/node': chromium-nodejs/20.11.0,"
           eq_refl eq_refl eq_refl).
Defined.

(** X3. When the [args.gn] of the chosen configuration cannot be read,
    build.py fails with the error of the file system and the build executor
    is never started. *)
Theorem build_main_unreadable_config
    (h : Host) (py : Interp) (w : World) (cli : BuildCli) (s : state)
    (os old_path : string)
    (Hos : current_os h = Ok os)
    (Hpath : environ s !! "PATH" = Some old_path)
    (Hgn : read_text w (trace s)
             (args_gn_path h py
                (default (os_path_join h (ROOT_DIR h) "src") (build_src_dir cli))
                (default "out/Component" (build_out_dir cli)))
           = None) :
  fst (build_main h py w cli s)
  = Raise (OSError
             (args_gn_path h py
                (default (os_path_join h (ROOT_DIR h) "src") (build_src_dir cli))
                (default "out/Component" (build_out_dir cli))))
  /\ trace (snd (build_main h py w cli s)) = trace s.
Proof.
  assert (E : exists env',
             build_main h py w cli s
             = (Raise (OSError
                         (args_gn_path h py
                            (default (os_path_join h (ROOT_DIR h) "src")
                               (build_src_dir cli))
                            (default "out/Component" (build_out_dir cli)))),
                {| environ := env'; trace := trace s |})).
  { unfold build_main. unfold bind at 1.
    rewrite (add_depot_tools_to_path_overlay h s _ old_path Hpath).
    unfold bind, lift, when, get_gn_config, run. rewrite Hos.
    destruct (String.eqb os "win"); unfold setenv, ret; cbn [trace environ];
      rewrite Hgn; eexists; reflexivity. }
  destruct E as [env' ->]. split; reflexivity.
Qed.

Lemma build_main_unreadable_config_witness :
  fst (build_main linux_x64 posix_interp
         {| run_process := run_process (steady 0 EmptyString);
            path_isdir := path_isdir (steady 0 EmptyString);
            path_exists := path_exists (steady 0 EmptyString);
            read_text := fun _ _ => None;
            archive := archive (steady 0 EmptyString);
            first_object := first_object (steady 0 EmptyString) |}
         {| build_targets := []; build_src_dir := None;
            build_out_dir := Some "out/Debug"; build_unknown := [] |} start)
  = Raise (OSError "/work/src/out/Debug/args.gn")
  /\ trace (snd (build_main linux_x64 posix_interp
                   {| run_process := run_process (steady 0 EmptyString);
                      path_isdir := path_isdir (steady 0 EmptyString);
                      path_exists := path_exists (steady 0 EmptyString);
                      read_text := fun _ _ => None;
                      archive := archive (steady 0 EmptyString);
                      first_object := first_object (steady 0 EmptyString) |}
                   {| build_targets := []; build_src_dir := None;
                      build_out_dir := Some "out/Debug";
                      build_unknown := [] |} start))
     = [].
Proof.
  exact (build_main_unreadable_config linux_x64 posix_interp
           {| run_process := run_process (steady 0 EmptyString);
              path_isdir := path_isdir (steady 0 EmptyString);
              path_exists := path_exists (steady 0 EmptyString);
              read_text := fun _ _ => None;
              archive := archive (steady 0 EmptyString);
              first_object := first_object (steady 0 EmptyString) |}
           {| build_targets := []; build_src_dir := None;
              build_out_dir := Some "out/Debug"; build_unknown := [] |} start
           "linux" "/usr/bin" eq_refl eq_refl eq_refl).
Defined.

(** ** Dependency pins *)

(** What a call of read_var_from_deps does. *)
Lemma read_var_from_deps_eq
    (h : Host) (w : World) (s : state) (var deps_file : string) :
  let argv := [ sys_executable h; "third_party/depot_tools/gclient.py";
                "getdep"; "--deps-file"; deps_file; "-r"; var ] in
  let p := run_process w (trace s) argv None None in
  read_var_from_deps h w var deps_file s
  = if returncode p =? 0
    then (Ok (p_stdout p), extend s [ Spawn argv None None ])
    else (Raise (ValueError "gclient getdep failed."),
          extend s [ Spawn argv None None;
                     Stdout (p_stdout p +:+ LF);
                     Stdout (p_stderr p +:+ LF) ]).
Proof.
  intros argv p. unfold read_var_from_deps, bind, run. fold argv p.
  destruct (returncode p =? 0); simpl; [reflexivity |].
  unfold extend; simpl. now rewrite <- !app_assoc.
Qed.

(** X4. read_var_from_deps returns the standard output of the manifest
    query as it is, printing nothing, when the query exits with zero; when
    it exits with any other status it prints the captured output and error
    streams and raises, and no value is returned. The query is started once,
    for the given manifest and key. *)
Theorem read_var_from_deps_run
    (h : Host) (w : World) (s : state) (var deps_file : string) :
  let argv := [ sys_executable h; "third_party/depot_tools/gclient.py";
                "getdep"; "--deps-file"; deps_file; "-r"; var ] in
  let p := run_process w (trace s) argv None None in
  read_var_from_deps h w var deps_file s
  = if returncode p =? 0
    then (Ok (p_stdout p), extend s [ Spawn argv None None ])
    else (Raise (ValueError "gclient getdep failed."),
          extend s [ Spawn argv None None;
                     Stdout (p_stdout p +:+ LF);
                     Stdout (p_stderr p +:+ LF) ]).
Proof. exact (read_var_from_deps_eq h w s var deps_file). Qed.

(** ** Pattern search *)

Lemma strip_prefix_app (p s rest : string) :
  strip_prefix p s = Some rest -> s = p +:+ rest.
Proof.
  revert s. induction p as [| a p IH]; intros s; simpl.
  - destruct s; now intros [= <-].
  - destruct s as [| b s]; [discriminate |].
    destruct (Ascii.eqb a b) eqn:E; [| discriminate].
    apply Ascii.eqb_eq in E as ->. intros H. now rewrite (IH s H).
Qed.

Lemma strip_prefix_prefix (p s : string) :
  strip_prefix p s = None <-> String.prefix p s = false.
Proof.
  revert s. induction p as [| a p IH]; intros s; simpl.
  - destruct s; simpl; split; discriminate.
  - destruct s as [| b s]; simpl; [tauto |].
    destruct (Ascii.eqb_spec a b) as [-> | Hne].
    + destruct (ascii_dec b b); [apply IH | congruence].
    + destruct (ascii_dec a b); [congruence | tauto].
Qed.

Lemma take_while_split (f : ascii -> bool) (s : string) :
  exists post,
    s = take_while f s +:+ post
    /\ all_chars f (take_while f s) = true
    /\ stops_run f post = true.
Proof.
  induction s as [| c s (post & Hs & Hall & Hstop)]; simpl.
  - exists EmptyString. auto.
  - destruct (f c) eqn:Hc.
    + exists post. simpl. rewrite Hc, Hall.
      repeat split; [| exact Hstop].
      change (String c s = String c (take_while f s +:+ post)). congruence.
    + exists (String c s). simpl. now rewrite Hc.
Qed.

(** X5. When the pattern search finds something, the text found is a run of
    characters of the pattern's class that follows an occurrence of the
    pattern's literal in the content, and the run is as long as it can be:
    what comes after it is the end of the content or a character outside
    the class. For the node version this means the version consists of
    digits and dots only. *)
Theorem re_search_sound (p : pattern) (content found : string)
    (Hfound : re_search p content = Some found) :
  exists pre post,
    content = pre +:+ re_literal p +:+ found +:+ post
    /\ all_chars (re_class p) found = true
    /\ stops_run (re_class p) post = true.
Proof.
  revert Hfound. induction content as [| c content IH]; simpl.
  - destruct (strip_prefix (re_literal p) EmptyString) as [rest |] eqn:E;
      [| discriminate].
    intros [= <-]. apply strip_prefix_app in E.
    destruct (take_while_split (re_class p) rest) as (post & Hs & Hall & Hstop).
    exists EmptyString, post. repeat split; [| exact Hall | exact Hstop].
    change (EmptyString
            = re_literal p +:+ (take_while (re_class p) rest +:+ post)).
    now rewrite <- Hs.
  - destruct (strip_prefix (re_literal p) (String c content)) as [rest |] eqn:E.
    + intros [= <-]. apply strip_prefix_app in E.
      destruct (take_while_split (re_class p) rest) as (post & Hs & Hall & Hstop).
      exists EmptyString, post. repeat split; [| exact Hall | exact Hstop].
      change (String c content
              = re_literal p +:+ (take_while (re_class p) rest +:+ post)).
      now rewrite <- Hs.
    + intros H. destruct (IH H) as (pre & post & Hc & Hall & Hstop).
      exists (String c pre), post. repeat split; [| exact Hall | exact Hstop].
      change (String c content
              = String c (pre +:+ re_literal p +:+ found +:+ post)).
      congruence.
Qed.

Lemma re_search_sound_witness :
  exists pre post,
    "'node': 'chromium-nodejs/20.11.0-rc', 'chromium-nodejs/18.0'"
    = pre +:+ "chromium-nodejs/" +:+ "20.11.0" +:+ post
    /\ all_chars is_version_char "20.11.0" = true
    /\ stops_run is_version_char post = true.
Proof.
  exact (re_search_sound node_version_pattern
           "'node': 'chromium-nodejs/20.11.0-rc', 'chromium-nodejs/18.0'"
           "20.11.0" eq_refl).
Defined.

Lemma contains_nil (needle : string) :
  PyStr.contains needle EmptyString = String.prefix needle EmptyString.
Proof. unfold PyStr.contains. apply orb_false_r. Qed.

Lemma contains_cons (needle : string) (c : ascii) (s : string) :
  PyStr.contains needle (String c s)
  = String.prefix needle (String c s) || PyStr.contains needle s.
Proof. reflexivity. Qed.

Lemma re_search_none (p : pattern) (content : string) :
  re_search p content = None
  <-> PyStr.contains (re_literal p) content = false.
Proof.
  induction content as [| c content IH].
  - rewrite contains_nil. cbn [re_search].
    destruct (strip_prefix (re_literal p) EmptyString) eqn:E.
    + split; [discriminate |].
      intros H. apply strip_prefix_prefix in H. congruence.
    + split; [intros _ | reflexivity]. now apply strip_prefix_prefix.
  - rewrite contains_cons. cbn [re_search].
    destruct (strip_prefix (re_literal p) (String c content)) eqn:E.
    + split; [discriminate |]. intros [H _]%orb_false_elim.
      apply strip_prefix_prefix in H. congruence.
    + apply strip_prefix_prefix in E. rewrite E. exact IH.
Qed.

(** X6. search_pattern fails with the pattern named in its error exactly
    when the file can be read and the pattern's literal occurs nowhere in
    it; it never does anything to the outside world or the environment. *)
Theorem search_pattern_no_match
    (w : World) (s : state) (filename content : string) (p : pattern)
    (Hread : read_text w (trace s) filename = Some content) :
  (PyStr.contains (re_literal p) content = false
   <-> search_pattern w filename p s
       = (Raise (ValueError ("Failed to match pattern: " +:+ re_source p)), s))
  /\ snd (search_pattern w filename p s) = s.
Proof.
  unfold search_pattern. rewrite Hread.
  destruct (re_search p content) as [found |] eqn:E; (split; [| reflexivity]).
  - split; [| discriminate].
    intros H. apply re_search_none in H. congruence.
  - split; [reflexivity |]. intros _. now apply re_search_none.
Qed.

Lemma search_pattern_no_match_witness :
  (PyStr.contains "chromium-nodejs/" "'node_version': '20.11.0'" = false
   <-> search_pattern (reading (steady 0 EmptyString) "'node_version': '20.11.0'")
         "DEPS" node_version_pattern start
       = (Raise (ValueError "Failed to match pattern: chromium-nodejs/([0-9.]*)"),
          start))
  /\ snd (search_pattern (reading (steady 0 EmptyString) "'node_version': '20.11.0'")
            "DEPS" node_version_pattern start) = start.
Proof.
  exact (search_pattern_no_match
           (reading (steady 0 EmptyString) "'node_version': '20.11.0'")
           start "DEPS" "'node_version': '20.11.0'" node_version_pattern eq_refl).
Defined.

(** ** Pinned blobs *)

(** What download_gcs_dep does when the manifest query succeeds and its
    output names an object. *)
Lemma download_gcs_dep_eq
    (h : Host) (w : World) (s : state)
    (name bucket output_file object_name : string) :
  let query := getdep_args h ("src/" +:+ name) "DEPS" in
  let p := run_process w (trace s) query None None in
  let fetch := download_args h bucket None (Some object_name) true
                 (Some (os_path_join h name output_file)) in
  let q := run_process w (trace s ++ [ Spawn query None None ]) fetch None None in
  returncode p = 0 ->
  first_object w (p_stdout p) = Ok (output_file, object_name) ->
  download_gcs_dep h w name bucket s
  = (if returncode q =? 0 then Ok tt
     else Raise (CalledProcessError (returncode q) fetch),
     extend s [ Spawn query None None; Spawn fetch None None ]).
Proof.
  intros query p fetch q Hp Hobj. unfold download_gcs_dep.
  unfold bind at 1. rewrite read_var_from_deps_eq. cbv zeta.
  fold (getdep_args h ("src/" +:+ name) "DEPS"). fold query. fold p.
  rewrite Hp. simpl Z.eqb. cbv iota.
  unfold bind at 1. unfold lift. rewrite Hobj. cbv zeta.
  rewrite download_from_google_storage_run. cbv zeta.
  simpl fst. simpl snd. fold fetch. simpl trace. fold q.
  unfold extend. simpl. now rewrite <- app_assoc.
Qed.

(** X7. When the manifest query for a pinned blob succeeds and its output
    names an object, download_gcs_dep fetches that object from the bucket,
    unpacking it, into the output file of the pin placed under the
    dependency's directory; it fails exactly when the retrieval client
    exits with a non-zero status. Nothing else is started. *)
Theorem download_gcs_dep_fetches_pin
    (h : Host) (w : World) (s : state)
    (name bucket output_file object_name : string)
    (Hquery : returncode
                (run_process w (trace s)
                   (getdep_args h ("src/" +:+ name) "DEPS") None None) = 0)
    (Hobj : first_object w
              (p_stdout
                 (run_process w (trace s)
                    (getdep_args h ("src/" +:+ name) "DEPS") None None))
            = Ok (output_file, object_name)) :
  let query := getdep_args h ("src/" +:+ name) "DEPS" in
  let fetch := download_args h bucket None (Some object_name) true
                 (Some (os_path_join h name output_file)) in
  let q := run_process w (trace s ++ [ Spawn query None None ]) fetch None None in
  download_gcs_dep h w name bucket s
  = (if returncode q =? 0 then Ok tt
     else Raise (CalledProcessError (returncode q) fetch),
     extend s [ Spawn query None None; Spawn fetch None None ]).
Proof.
  exact (download_gcs_dep_eq h w s name bucket output_file object_name
           Hquery Hobj).
Qed.

Lemma download_gcs_dep_fetches_pin_witness :
  download_gcs_dep linux_x64 (steady 0 "{...}") "third_party/node/linux"
    "chromium-nodejs" start
  = (Ok tt,
     extend start
       [ Spawn [ "/usr/bin/python3"; "third_party/depot_tools/gclient.py";
                 "getdep"; "--deps-file"; "DEPS"; "-r";
                 "src/third_party/node/linux" ] None None;
         Spawn [ "/usr/bin/python3";
                 "third_party/depot_tools/download_from_google_storage.py";
                 "--no_resume"; "--no_auth"; "--bucket"; "chromium-nodejs";
                 "0123abcd"; "--extract";
                 "-o"; "third_party/node/linux/node.tar.gz" ] None None ]).
Proof.
  exact (download_gcs_dep_fetches_pin linux_x64 (steady 0 "{...}") start
           "third_party/node/linux" "chromium-nodejs" "node.tar.gz" "0123abcd"
           eq_refl eq_refl).
Defined.

(** X8. When the manifest query fails, or its output does not name an
    object, download_gcs_dep raises and the retrieval client is never
    started. *)
Theorem download_gcs_dep_needs_pin
    (h : Host) (w : World) (s : state) (name bucket : string)
    (Hbad : returncode
              (run_process w (trace s)
                 (getdep_args h ("src/" +:+ name) "DEPS") None None) <> 0
            \/ exists e,
                 first_object w
                   (p_stdout
                      (run_process w (trace s)
                         (getdep_args h ("src/" +:+ name) "DEPS") None None))
                 = Raise e) :
  exists e evs,
    fst (download_gcs_dep h w name bucket s) = Raise e
    /\ trace (snd (download_gcs_dep h w name bucket s)) = (trace s ++ evs)%list
    /\ existsb is_download evs = false.
Proof.
  assert (E : exists e evs,
             download_gcs_dep h w name bucket s = (Raise e, extend s evs)
             /\ existsb is_download evs = false).
  { unfold download_gcs_dep. unfold bind at 1.
    rewrite read_var_from_deps_eq. cbv zeta.
    fold (getdep_args h ("src/" +:+ name) "DEPS").
    set (p := run_process w (trace s) _ None None) in *.
    destruct (returncode p =? 0) eqn:Ep.
    - destruct Hbad as [Hne | [e He]]; [apply Z.eqb_eq in Ep; contradiction |].
      unfold bind, lift. rewrite He.
      exists e, [ Spawn (getdep_args h ("src/" +:+ name) "DEPS") None None ].
      split; reflexivity.
    - eexists _, _. split; reflexivity. }
  destruct E as (e & evs & -> & Hevs). exists e, evs. repeat split. exact Hevs.
Qed.

Lemma download_gcs_dep_needs_pin_witness :
  exists e evs,
    fst (download_gcs_dep linux_x64 (steady 3 "no such key")
           "third_party/node/linux" "chromium-nodejs" start) = Raise e
    /\ trace (snd (download_gcs_dep linux_x64 (steady 3 "no such key")
                     "third_party/node/linux" "chromium-nodejs" start))
       = (trace start ++ evs)%list
    /\ existsb is_download evs = false.
Proof.
  apply (download_gcs_dep_needs_pin linux_x64 (steady 3 "no such key") start
           "third_party/node/linux" "chromium-nodejs").
  left. vm_compute. discriminate.
Defined.

Lemma download_gcs_dep_ok_inv
    (h : Host) (w : World) (s s' : state) (name bucket : string) :
  download_gcs_dep h w name bucket s = (Ok tt, s') ->
  exists obj,
    s' = extend s
           [ Spawn (getdep_args h ("src/" +:+ name) "DEPS") None None;
             Spawn (download_args h bucket None (Some (snd obj)) true
                      (Some (os_path_join h name (fst obj)))) None None ].
Proof.
  unfold download_gcs_dep. unfold bind at 1.
  rewrite read_var_from_deps_eq. cbv zeta.
  fold (getdep_args h ("src/" +:+ name) "DEPS").
  set (p := run_process w (trace s) _ None None).
  destruct (returncode p =? 0); [| discriminate].
  unfold bind, lift.
  destruct (first_object w (p_stdout p)) as [obj | e]; [| discriminate].
  rewrite download_from_google_storage_run. cbv zeta.
  destruct (returncode _ =? 0); [| discriminate].
  intros [= <-]. exists obj. unfold extend. simpl. now rewrite <- app_assoc.
Qed.

(** X9. Without the node marker file, a call of download_nodejs that
    succeeds has queried the manifest for the linux node build first and
    then for the builds of the host (mac and mac_arm64 on a Mac, win on
    Windows, none on linux), in that order, and has fetched one blob for
    each of them. Unlike its marker-file path, this path works on a Mac. *)
Theorem download_nodejs_pinned_platforms
    (h : Host) (w : World) (s s' : state) (host_os : string)
    (Hmarker : path_exists w (trace s)
                 "third_party/node/linux/node-linux-x64.tar.gz.sha1" = false)
    (Hrun : download_nodejs h w host_os s = (Ok tt, s')) :
  exists evs,
    trace s' = (trace s ++ evs)%list
    /\ getdep_vars evs
       = map (fun p => "src/third_party/node/" +:+ p) (node_platforms host_os)
    /\ List.length (List.filter is_download evs)
       = List.length (node_platforms host_os).
Proof.
  unfold download_nodejs in Hrun. unfold bind at 1 in Hrun.
  unfold exists_ in Hrun. rewrite Hmarker in Hrun.
  apply bind_ok_inv in Hrun as ([] & s1 & H1 & Hrun).
  apply download_gcs_dep_ok_inv in H1 as [o1 ->].
  unfold node_platforms.
  destruct (String.eqb host_os "mac").
  - apply bind_ok_inv in Hrun as ([] & s2 & H2 & H3).
    apply download_gcs_dep_ok_inv in H2 as [o2 ->].
    apply download_gcs_dep_ok_inv in H3 as [o3 ->].
    eexists. split.
    + unfold extend. simpl. rewrite <- !app_assoc. reflexivity.
    + split; reflexivity.
  - destruct (String.eqb host_os "win").
    + apply download_gcs_dep_ok_inv in Hrun as [o2 ->].
      eexists. split.
      * unfold extend. simpl. rewrite <- !app_assoc. reflexivity.
      * split; reflexivity.
    + injection Hrun as <-. eexists. split; [reflexivity |].
      split; reflexivity.
Qed.

Lemma download_nodejs_pinned_platforms_witness :
  exists evs,
    trace (snd (download_nodejs mac_arm64 (without_files (steady 0 "{...}"))
                  "mac" start))
    = (trace start ++ evs)%list
    /\ getdep_vars evs
       = [ "src/third_party/node/linux"; "src/third_party/node/mac";
           "src/third_party/node/mac_arm64" ]
    /\ List.length (List.filter is_download evs) = 3%nat.
Proof.
  apply (download_nodejs_pinned_platforms mac_arm64
           (without_files (steady 0 "{...}")) start _ "mac" eq_refl).
  vm_compute. reflexivity.
Defined.

(** ** The orchestrator, before provisioning *)

Lemma parse_args_ok (h : Host) (cli : Cli) (s : state) (cpu os : string) :
  current_cpu h = Ok cpu -> current_os h = Ok os ->
  parse_args h cli s = (Ok (args_of h cli cpu os), s).
Proof.
  intros Hcpu Hos. unfold parse_args, bind, lift, ret. now rewrite Hcpu, Hos.
Qed.

Lemma main_with_source
    (h : Host) (w : World) (cli : Cli) (s : state) (cpu os : string) :
  current_cpu h = Ok cpu -> current_os h = Ok os ->
  PyStr.truthy_opt (cli_revision cli)
  || PyStr.truthy_opt (cli_tarball_url cli) = true ->
  main h w cli s
  = (stop <- acquire_source h w (args_of h cli cpu os) ;;
     match stop with
     | Some code => ret (Some code)
     | None => provision h w (args_of h cli cpu os)
     end) s.
Proof.
  intros Hcpu Hos Hsrc. unfold main. unfold bind at 1.
  rewrite (parse_args_ok h cli s cpu os Hcpu Hos).
  cbn [revision tarball_url args_of]. apply orb_prop in Hsrc.
  replace (negb (PyStr.truthy_opt (cli_revision cli))
           && negb (PyStr.truthy_opt (cli_tarball_url cli))) with false
    by (destruct Hsrc as [-> | ->]; simpl; now rewrite ?andb_false_r).
  reflexivity.
Qed.

(** X10. When the source directory is missing but the directory the tarball
    would unpack to already exists, the orchestrator prints that it cannot
    download the tarball and returns 1: nothing is downloaded, renamed or
    provisioned. *)
Theorem main_tarball_dir_conflict
    (h : Host) (w : World) (cli : Cli) (s : state) (cpu os : string)
    (Hcpu : current_cpu h = Ok cpu)
    (Hos : current_os h = Ok os)
    (Hsrc : PyStr.truthy_opt (cli_revision cli)
            || PyStr.truthy_opt (cli_tarball_url cli) = true)
    (Hdir : path_isdir w (trace s) (src_dir (args_of h cli cpu os)) = false)
    (Htaken : path_isdir w (trace s) (tarball_dir_of h (args_of h cli cpu os))
              = true) :
  main h w cli s
  = (Ok (Some 1),
     extend s
       [ Stdout (("Unable to download tarball since "
                  +:+ tarball_dir_of h (args_of h cli cpu os)
                  +:+ " exists.") +:+ LF) ]).
Proof.
  rewrite (main_with_source h w cli s cpu os Hcpu Hos Hsrc).
  unfold bind at 1. unfold acquire_source. unfold bind at 1. unfold isdir at 1.
  rewrite Hdir. cbv zeta. cbn [negb].
  fold (tarball_dir_of h (args_of h cli cpu os)).
  unfold bind at 1. unfold isdir. rewrite Htaken. unfold bind, print, emit, ret. reflexivity.
Qed.

Lemma main_tarball_dir_conflict_witness :
  main linux_x64
    {| run_process := run_process (steady 0 EmptyString);
       path_isdir := fun _ p => String.eqb p "chromium-120.0.6099.5";
       path_exists := path_exists (steady 0 EmptyString);
       read_text := read_text (steady 0 EmptyString);
       archive := archive (steady 0 EmptyString);
       first_object := first_object (steady 0 EmptyString) |}
    (cli_of (Some "120.0.6099.5") None None) start
  = (Ok (Some 1),
     extend start
       [ Stdout ("Unable to download tarball since chromium-120.0.6099.5 exists."
                 +:+ LF) ]).
Proof.
  exact (main_tarball_dir_conflict linux_x64
           {| run_process := run_process (steady 0 EmptyString);
              path_isdir := fun _ p => String.eqb p "chromium-120.0.6099.5";
              path_exists := path_exists (steady 0 EmptyString);
              read_text := read_text (steady 0 EmptyString);
              archive := archive (steady 0 EmptyString);
              first_object := first_object (steady 0 EmptyString) |}
           (cli_of (Some "120.0.6099.5") None None) start "x64" "linux"
           eq_refl eq_refl eq_refl eq_refl eq_refl).
Defined.

Lemma for_each_dots (n : nat) (s : state) :
  for_each (replicate n tt) (fun _ => print_noend ".") s
  = (Ok tt, extend s (replicate n (Stdout "."))).
Proof.
  revert s. induction n as [| n IH]; intros s.
  - destruct s. unfold extend. simpl. now rewrite app_nil_r.
  - simpl. unfold bind. simpl. rewrite IH. unfold extend. simpl.
    now rewrite <- app_assoc.
Qed.

(** X11. When neither the source directory nor the tarball's directory
    exists, the orchestrator announces the download, streams the archive
    into the current directory, printing one dot for every 5000 members
    read, and only when the stream ended well prints Done and renames the
    extracted directory to the source directory. When the stream fails the
    call raises and nothing is renamed. *)
Theorem acquire_source_renames_after_extraction
    (h : Host) (w : World) (args : Args) (s : state)
    (Hdir : path_isdir w (trace s) (src_dir args) = false)
    (Hfree : path_isdir w (trace s) (tarball_dir_of h args) = false) :
  let dir := tarball_dir_of h args in
  let url := tarball_url_of args in
  let announce := Stdout ("Download and extract " +:+ dir) in
  let members := fst (archive w (trace s ++ [ announce ]) url) in
  let ok := snd (archive w (trace s ++ [ announce ]) url) in
  acquire_source h w args s
  = (if ok then Ok None else Raise (OSError url),
     extend s
       (announce :: Fetch url "."
        :: replicate (members / 5000)%nat (Stdout ".")
        ++ (if ok then [ Stdout ("Done" +:+ LF); Rename dir (src_dir args) ]
            else []))).
Proof.
  cbv zeta. unfold acquire_source.
  unfold bind at 1. unfold isdir at 1. rewrite Hdir. cbv zeta. cbn [negb].
  fold (tarball_dir_of h args).
  unfold bind at 1. unfold isdir. rewrite Hfree.
  unfold bind at 1. unfold print_noend at 1. unfold emit at 1.
  unfold bind at 1. unfold download_and_extract. cbn [trace].
  destruct (archive w _ (tarball_url_of args)) as [members ok].
  cbn [fst snd]. unfold bind at 1. unfold emit at 1. cbn [trace environ].
  unfold bind at 1. rewrite for_each_dots.
  destruct ok; simpl; unfold extend; simpl; rewrite <- ?app_assoc; simpl.
  - unfold bind, print, emit. simpl. rewrite <- !app_assoc. reflexivity.
  - now rewrite app_nil_r.
Qed.

Lemma acquire_source_renames_after_extraction_witness :
  acquire_source linux_x64 first_checkout
    (args_of linux_x64 (cli_of (Some "120.0.6099.5") None None) "x64" "linux")
    start
  = (Ok None,
     extend start
       [ Stdout "Download and extract chromium-120.0.6099.5";
         Fetch
           "https://github.com/chrohime/chromium_source_tarball/releases/download/120.0.6099.5/chromium-120.0.6099.5.tar.xz"
           ".";
         Stdout "."; Stdout ".";
         Stdout ("Done" +:+ LF);
         Rename "chromium-120.0.6099.5" "/work/src" ]).
Proof.
  exact (acquire_source_renames_after_extraction linux_x64 first_checkout
           (args_of linux_x64 (cli_of (Some "120.0.6099.5") None None)
              "x64" "linux")
           start eq_refl eq_refl).
Defined.

(** X12. On a platform the resolver does not know, bootstrap.py and
    gn_gen.py fail while their options are being declared, before anything
    is done, even when the command line gives both the target OS and the
    target CPU. *)
Theorem unsupported_platform_fails_first
    (h : Host) (w : World) (cli : Cli) (gcli : GnCli) (s : state)
    (Hunknown : recognized_platform (sys_platform h) = false) :
  (exists e, main h w cli s = (Raise e, s))
  /\ (exists e, gn_main h w gcli s = (Raise e, s)).
Proof.
  pose proof (current_os_unrecognized h Hunknown) as Hos.
  split; unfold main, gn_main, parse_args, bind, lift;
    destruct (current_cpu h) as [cpu | e']; rewrite ?Hos; eauto.
Qed.

Lemma unsupported_platform_fails_first_witness :
  (exists e,
     main (Posix.host "freebsd14" "amd64") (steady 0 EmptyString)
       (cli_of (Some "120.0.6099.5") (Some "x64") (Some "linux")) start
     = (Raise e, start))
  /\ (exists e,
        gn_main (Posix.host "freebsd14" "amd64") (steady 0 EmptyString)
          {| gn_target_cpu := Some "x64"; gn_target_os := Some "linux";
             gn_src_dir := None; gn_arg := []; gn_reclient := false;
             gn_config := None; gn_custom_config := None |} start
        = (Raise e, start)).
Proof.
  exact (unsupported_platform_fails_first (Posix.host "freebsd14" "amd64")
           (steady 0 EmptyString)
           (cli_of (Some "120.0.6099.5") (Some "x64") (Some "linux"))
           {| gn_target_cpu := Some "x64"; gn_target_os := Some "linux";
              gn_src_dir := None; gn_arg := []; gn_reclient := false;
              gn_config := None; gn_custom_config := None |} start eq_refl).
Defined.

(** ** The name of the extracted directory *)

Lemma append_cons (x : ascii) (a b : string) :
  String x a +:+ b = String x (a +:+ b).
Proof. reflexivity. Qed.

Lemma append_assoc (a b c : string) : (a +:+ b) +:+ c = a +:+ (b +:+ c).
Proof.
  induction a as [| x a IH]; [reflexivity |].
  now rewrite !append_cons, IH.
Qed.

Lemma length_append (a b : string) :
  String.length (a +:+ b) = (String.length a + String.length b)%nat.
Proof.
  induction a as [| x a IH]; [reflexivity |].
  rewrite append_cons. simpl. now rewrite IH.
Qed.

Lemma substring_append (a b : string) :
  String.substring 0 (String.length a) (a +:+ b) = a.
Proof.
  induction a as [| x a IH].
  - change (EmptyString +:+ b) with b. now destruct b.
  - rewrite append_cons. simpl. now rewrite IH.
Qed.

Lemma drop_last_suffix (a b : string) :
  PyStr.drop_last (String.length b) (a +:+ b) = a.
Proof.
  unfold PyStr.drop_last. rewrite length_append.
  replace (String.length a + String.length b - String.length b)%nat
    with (String.length a) by lia.
  apply substring_append.
Qed.

Lemma all_chars_append (f : ascii -> bool) (a b : string) :
  all_chars f (a +:+ b) = all_chars f a && all_chars f b.
Proof.
  induction a as [| x a IH]; [reflexivity |].
  rewrite append_cons. simpl. now rewrite IH, andb_assoc.
Qed.

Lemma append_empty (a : string) : a +:+ EmptyString = a.
Proof.
  induction a as [| x a IH]; [reflexivity |]. now rewrite append_cons, IH.
Qed.

Lemma basename_from_plain (cur name : string) :
  all_chars not_slash name = true ->
  Posix.basename_from cur name = cur +:+ name.
Proof.
  revert cur. induction name as [| c name IH]; intros cur; simpl.
  - intros _. now rewrite append_empty.
  - intros [Hc Hname]%andb_prop. unfold not_slash in Hc.
    apply negb_true_iff in Hc. rewrite Hc, (IH _ Hname).
    now rewrite append_assoc.
Qed.

Lemma basename_from_dir (cur dir name : string) :
  all_chars not_slash name = true ->
  Posix.basename_from cur (dir +:+ String "/"%char name) = name.
Proof.
  intros Hname. revert cur. induction dir as [| c dir IH]; intros cur.
  - change (EmptyString +:+ String "/"%char name) with (String "/"%char name).
    simpl. now rewrite (basename_from_plain EmptyString name Hname).
  - rewrite append_cons. simpl. destruct (Ascii.eqb c "/"%char); apply IH.
Qed.

(** X13. With a revision that has no slash in it, on a host whose
    [os.path.basename] is the POSIX one, the directory the orchestrator
    expects the tarball to unpack to is chromium- followed by the revision:
    cutting seven characters off the file name of the tarball URL removes
    exactly its .tar.xz ending. A tarball URL given besides the revision is
    ignored. *)
Theorem tarball_dir_of_revision
    (h : Host) (args : Args) (rev : string)
    (Hbase : os_path_basename h = Posix.basename)
    (Hrev : revision args = Some rev)
    (Hgiven : PyStr.truthy rev = true)
    (Hplain : all_chars not_slash rev = true) :
  tarball_url_of args
  = CHROMIUM_URL +:+ "/" +:+ rev +:+ "/chromium-" +:+ rev +:+ ".tar.xz"
  /\ tarball_dir_of h args = "chromium-" +:+ rev.
Proof.
  assert (Hurl : tarball_url_of args
                 = CHROMIUM_URL +:+ "/" +:+ rev +:+ "/chromium-" +:+ rev
                   +:+ ".tar.xz").
  { unfold tarball_url_of. now rewrite Hrev, Hgiven. }
  split; [exact Hurl |].
  unfold tarball_dir_of. rewrite Hurl, Hbase. unfold Posix.basename.
  change ("/chromium-" +:+ rev +:+ ".tar.xz")
    with (String "/"%char ("chromium-" +:+ rev +:+ ".tar.xz")).
  rewrite <- (append_assoc "/" rev), <- (append_assoc CHROMIUM_URL).
  rewrite basename_from_dir.
  - rewrite <- (append_assoc "chromium-" rev).
    exact (drop_last_suffix ("chromium-" +:+ rev) ".tar.xz").
  - rewrite !all_chars_append, Hplain. reflexivity.
Qed.

Lemma tarball_dir_of_revision_witness :
  tarball_url_of
    (args_of linux_x64
       {| cli_revision := Some "120.0.6099.5";
          cli_tarball_url := Some "https://example.org/other.tar.xz";
          cli_src_dir := None; cli_target_cpu := None;
          cli_target_os := None |} "x64" "linux")
  = CHROMIUM_URL +:+ "/" +:+ "120.0.6099.5" +:+ "/chromium-"
    +:+ "120.0.6099.5" +:+ ".tar.xz"
  /\ tarball_dir_of linux_x64
       (args_of linux_x64
          {| cli_revision := Some "120.0.6099.5";
             cli_tarball_url := Some "https://example.org/other.tar.xz";
             cli_src_dir := None; cli_target_cpu := None;
             cli_target_os := None |} "x64" "linux")
     = "chromium-" +:+ "120.0.6099.5".
Proof.
  exact (tarball_dir_of_revision linux_x64
           (args_of linux_x64
              {| cli_revision := Some "120.0.6099.5";
                 cli_tarball_url := Some "https://example.org/other.tar.xz";
                 cli_src_dir := None; cli_target_cpu := None;
                 cli_target_os := None |} "x64" "linux")
           "120.0.6099.5" eq_refl eq_refl eq_refl eq_refl).
Defined.

(** ** Failing fast *)

Section FailFast.

Context (h : Host) (w : World).



















End FailFast.




(** ** gn_gen.py as a whole *)

Lemma gen_dirs_stdout (texts : list string) (f : string -> string) :
  gen_dirs (map (fun line => Stdout (f line)) texts) = [].
Proof. induction texts as [| t texts IH]; [reflexivity | exact IH]. Qed.

Lemma extend_extend (s : state) (evs1 evs2 : list event) :
  extend (extend s evs1) evs2 = extend s (evs1 ++ evs2).
Proof. unfold extend. simpl. now rewrite app_assoc. Qed.

Lemma generates_gn_gen
    (h : Host) (w : World) (os src_dir out_dir : string)
    (args : list string) (b : bool) :
  current_os h = Ok os ->
  generates (when b (gn_gen h w src_dir out_dir args))
    (if b then [ out_dir ] else []).
Proof.
  intros Hos s. destruct b; simpl.
  - rewrite (gn_gen_run h w s src_dir out_dir os args Hos). cbv zeta.
    eexists. split; [reflexivity |].
    unfold gen_dirs. cbn [omap list_omap gen_dir arg_is nth_error List.length].
    simpl. fold (gen_dirs (map (fun line => Stdout (PyStr.strip line +:+ LF))
      (List.filter shown (PyStr.lines (p_stdout (run_process w (trace s)
         [if String.eqb os "win" then "gn.bat" else "gn"; "gen"; out_dir;
          "--args=" +:+ PyStr.join " " args] (Some src_dir) None)))))).
    now rewrite gen_dirs_stdout.
  - exists []. split; [| reflexivity]. unfold extend.
    destruct s. simpl. now rewrite app_nil_r.
Qed.

Lemma generates_seq (m k : M unit) (d1 d2 : list string) :
  generates m d1 -> generates k d2 ->
  generates (bind m (fun _ => k)) (d1 ++ d2).
Proof.
  intros Hm Hk s. unfold bind.
  destruct (Hm s) as (e1 & -> & H1).
  destruct (Hk (extend s e1)) as (e2 & -> & H2).
  exists (e1 ++ e2)%list. split; [now rewrite extend_extend |].
  unfold gen_dirs in *. now rewrite omap_app, H1, H2.
Qed.

(** X15. On a supported platform with a search path in the environment,
    gn_gen.py runs to its end whatever the generator's exit statuses, and
    starts gn gen once for each configuration asked for, in this order:
    Component, Release and Debug, each when it is the chosen one or when
    neither a configuration nor a custom configuration is chosen, then the
    custom configuration when one is given. *)
Theorem gn_main_generates_plan
    (h : Host) (w : World) (cli : GnCli) (s : state) (os cpu old_path : string)
    (Hos : current_os h = Ok os)
    (Hcpu : current_cpu h = Ok cpu)
    (Hpath : environ s !! "PATH" = Some old_path) :
  exists evs,
    fst (gn_main h w cli s) = Ok tt
    /\ trace (snd (gn_main h w cli s)) = (trace s ++ evs)%list
    /\ gen_dirs evs = gn_plan cli.
Proof.
  assert (E : exists evs,
             gn_main h w cli s
             = (Ok tt,
                extend {| environ :=
                            overlay h (default (os_path_join h (ROOT_DIR h) "src")
                                         (gn_src_dir cli)) old_path
                            ∪ environ s;
                          trace := trace s |} evs)
             /\ gen_dirs evs = gn_plan cli).
  { unfold gn_main.
    unfold bind at 1. unfold lift at 1. rewrite Hcpu.
    unfold bind at 1. unfold lift at 1. rewrite Hos. cbv zeta.
    unfold bind at 1.
    rewrite (add_depot_tools_to_path_overlay h s _ old_path Hpath).
    unfold gn_plan. cbv zeta.
    apply generates_seq; [now apply generates_gn_gen with (os := os) |].
    apply generates_seq; [now apply generates_gn_gen with (os := os) |].
    apply generates_seq; [now apply generates_gn_gen with (os := os) |].
    now apply generates_gn_gen with (os := os). }
  destruct E as (evs & -> & Hplan). exists evs. repeat split. exact Hplan.
Qed.

Lemma gn_main_generates_plan_witness :
  exists evs,
    fst (gn_main linux_x64 (steady 1 "ERROR")
           {| gn_target_cpu := None; gn_target_os := None; gn_src_dir := None;
              gn_arg := []; gn_reclient := true;
              gn_config := Some "Release";
              gn_custom_config := Some "Profiling" |} start) = Ok tt
    /\ trace (snd (gn_main linux_x64 (steady 1 "ERROR")
                     {| gn_target_cpu := None; gn_target_os := None;
                        gn_src_dir := None; gn_arg := []; gn_reclient := true;
                        gn_config := Some "Release";
                        gn_custom_config := Some "Profiling" |} start))
       = (trace start ++ evs)%list
    /\ gen_dirs evs = [ "out/Release"; "out/Profiling" ].
Proof.
  exact (gn_main_generates_plan linux_x64 (steady 1 "ERROR")
           {| gn_target_cpu := None; gn_target_os := None; gn_src_dir := None;
              gn_arg := []; gn_reclient := true;
              gn_config := Some "Release";
              gn_custom_config := Some "Profiling" |} start
           "linux" "x64" "/usr/bin" eq_refl eq_refl eq_refl).
Defined.

(** ** The order of the stages *)

Lemma check_call_ok_inv (w : World) (argv : list string) (s s' : state) :
  check_call w argv s = (Ok tt, s') -> s' = extend s [ Spawn argv None None ].
Proof.
  unfold check_call, bind, run. destruct (returncode _ =? 0); [| discriminate].
  now intros [= <-].
Qed.

Lemma add_depot_tools_to_path_ok_inv (h : Host) (src : string) (s s' : state) :
  add_depot_tools_to_path h src s = (Ok tt, s') -> trace s' = trace s.
Proof.
  unfold add_depot_tools_to_path, bind, setenv, getenv. simpl.
  destruct (_ !! "PATH"); [| discriminate]. now intros [= <-].
Qed.

Lemma later_stages_emit (h : Host) (w : World) (args : Args)
    (host_os host_cpu : string) :
  emits any_event
    (download_nodejs h w host_os;;;
     install_common_tools h w;;;
     install_host_tools h w args host_os host_cpu;;;
     install_sysroots h w args host_os host_cpu;;; ret (@None Z)).
Proof. unfold_program. emits_go; intros; reflexivity. Qed.

(** X16. Every run of the stages after the source tarball that completes
    began with the compilers: on Windows the tool bootstrap first, then the
    change into the source directory, on Windows the toolchain update (which
    must precede the clang download), then the clang update and the rust
    update; the utility binaries, packages and sysroots all come after. *)
Theorem provision_starts_with_toolchains
    (h : Host) (w : World) (args : Args) (s s' : state)
    (os cpu : string) (r : option Z)
    (Hos : current_os h = Ok os)
    (Hcpu : current_cpu h = Ok cpu)
    (Hrun : provision h w args s = (Ok r, s')) :
  exists evs,
    trace s' = (trace s ++ toolchain_steps h os (src_dir args) ++ evs)%list.
Proof.
  unfold provision in Hrun.
  unfold bind at 1 in Hrun. unfold lift at 1 in Hrun. rewrite Hos in Hrun.
  unfold bind at 1 in Hrun. unfold lift at 1 in Hrun. rewrite Hcpu in Hrun.
  unfold toolchain_steps.
  destruct (String.eqb os "win"); simpl when in Hrun.
  - apply bind_ok_inv in Hrun as ([] & s1 & H1 & Hrun).
    apply check_call_ok_inv in H1 as ->.
    apply bind_ok_inv in Hrun as ([] & s2 & H2 & Hrun).
    apply add_depot_tools_to_path_ok_inv in H2.
    apply bind_ok_inv in Hrun as ([] & s3 & H3 & Hrun).
    injection H3 as <-.
    apply bind_ok_inv in Hrun as ([] & s4 & H4 & Hrun).
    apply check_call_ok_inv in H4 as ->.
    apply bind_ok_inv in Hrun as ([] & s5 & H5 & Hrun).
    apply check_call_ok_inv in H5 as ->.
    apply bind_ok_inv in Hrun as ([] & s6 & H6 & Hrun).
    apply check_call_ok_inv in H6 as ->.
    match type of Hrun with
    | _ ?st = _ =>
        destruct (later_stages_emit h w args os cpu st) as (evs & Ht & _)
    end.
    rewrite Hrun in Ht. simpl in Ht. exists evs. rewrite Ht, H2. simpl.
    now rewrite <- !app_assoc.
  - apply bind_ok_inv in Hrun as ([] & s1 & H1 & Hrun). injection H1 as <-.
    apply bind_ok_inv in Hrun as ([] & s2 & H2 & Hrun).
    apply add_depot_tools_to_path_ok_inv in H2.
    apply bind_ok_inv in Hrun as ([] & s3 & H3 & Hrun).
    injection H3 as <-.
    apply bind_ok_inv in Hrun as ([] & s4 & H4 & Hrun). injection H4 as <-.
    apply bind_ok_inv in Hrun as ([] & s5 & H5 & Hrun).
    apply check_call_ok_inv in H5 as ->.
    apply bind_ok_inv in Hrun as ([] & s6 & H6 & Hrun).
    apply check_call_ok_inv in H6 as ->.
    match type of Hrun with
    | _ ?st = _ =>
        destruct (later_stages_emit h w args os cpu st) as (evs & Ht & _)
    end.
    rewrite Hrun in Ht. simpl in Ht. exists evs. rewrite Ht, H2. simpl.
    now rewrite <- !app_assoc.
Qed.

Lemma provision_starts_with_toolchains_witness :
  exists evs,
    trace (snd (provision win_x64 (steady 0 "version:1")
                  (args_of win_x64 (cli_of (Some "120.0.6099.5") None None)
                     "x64" "win") start))
    = (trace start
       ++ [ Spawn [ "C:/work/vendor/depot_tools/bootstrap/win_tools.bat" ]
              None None;
            Chdir "C:/work/src";
            Spawn [ "C:/Python/python.exe"; "build/vs_toolchain.py"; "update";
                    "--force" ] None None;
            Spawn [ "C:/Python/python.exe"; "tools/clang/scripts/update.py" ]
              None None;
            Spawn [ "C:/Python/python.exe"; "tools/rust/update_rust.py" ]
              None None ]
       ++ evs)%list.
Proof.
  apply (provision_starts_with_toolchains win_x64 (steady 0 "version:1")
           (args_of win_x64 (cli_of (Some "120.0.6099.5") None None)
              "x64" "win") start _ "win" "x64" None eq_refl eq_refl).
  vm_compute. reflexivity.
Defined.

(** ** Node by marker file *)

(** X17. With the node marker file present, a call of download_nodejs that
    succeeds was made for a host other than a Mac, found a node version in
    DEPS, and fetched from the bucket of that version the linux archive,
    unpacking it, and on Windows after it node.exe, not unpacked; it started
    nothing else. *)
Theorem download_nodejs_by_marker
    (h : Host) (w : World) (s s' : state) (host_os : string)
    (Hmarker : path_exists w (trace s)
                 "third_party/node/linux/node-linux-x64.tar.gz.sha1" = true)
    (Hrun : download_nodejs h w host_os s = (Ok tt, s')) :
  exists content version,
    String.eqb host_os "mac" = false
    /\ read_text w (trace s) "DEPS" = Some content
    /\ re_search node_version_pattern content = Some version
    /\ s' = extend s
              (Spawn (download_args h ("chromium-nodejs/" +:+ version)
                        (Some "third_party/node/linux/node-linux-x64.tar.gz.sha1")
                        None true None) None None
               :: (if String.eqb host_os "win"
                   then [ Spawn (download_args h ("chromium-nodejs/" +:+ version)
                                   (Some "third_party/node/win/node.exe.sha1")
                                   None false None) None None ]
                   else [])).
Proof.
  unfold download_nodejs in Hrun. unfold bind at 1 in Hrun.
  unfold exists_ in Hrun. rewrite Hmarker in Hrun.
  apply bind_ok_inv in Hrun as (version & s1 & Hsearch & Hrun).
  unfold search_pattern in Hsearch.
  destruct (read_text w (trace s) "DEPS") as [content |]; [| discriminate].
  destruct (re_search node_version_pattern content) as [v |] eqn:Hv;
    [| discriminate].
  injection Hsearch as <- <-.
  apply bind_ok_inv in Hrun as ([] & s2 & Hlinux & Hrun).
  unfold download_from_google_storage in Hlinux.
  apply check_call_ok_inv in Hlinux as ->.
  exists content, v.
  destruct (String.eqb host_os "mac").
  - exfalso. unfold bind, load_name in Hrun.
    destruct (host_cpu_unbound h host_os v) as [E1 E2].
    rewrite E1, E2 in Hrun. discriminate Hrun.
  - split; [reflexivity |]. split; [reflexivity |]. split; [exact Hv |].
    destruct (String.eqb host_os "win").
    + unfold download_from_google_storage in Hrun.
      apply check_call_ok_inv in Hrun as ->. apply extend_extend.
    + now injection Hrun as <-.
Qed.

Lemma download_nodejs_by_marker_witness :
  exists content version,
    String.eqb "win" "mac" = false
    /\ read_text (steady 0 EmptyString) (trace start) "DEPS" = Some content
    /\ re_search node_version_pattern content = Some version
    /\ snd (download_nodejs win_x64 (steady 0 EmptyString) "win" start)
       = extend start
           (Spawn (download_args win_x64 ("chromium-nodejs/" +:+ version)
                     (Some "third_party/node/linux/node-linux-x64.tar.gz.sha1")
                     None true None) None None
            :: (if String.eqb "win" "win"
                then [ Spawn (download_args win_x64
                                ("chromium-nodejs/" +:+ version)
                                (Some "third_party/node/win/node.exe.sha1")
                                None false None) None None ]
                else [])).
Proof.
  apply (download_nodejs_by_marker win_x64 (steady 0 EmptyString) start _ "win"
           eq_refl).
  vm_compute. reflexivity.
Defined.

(** ** The generator's version *)

(** What a call of cipd does. *)
Lemma cipd_eq
    (h : Host) (w : World) (s : state) (root package version os : string)
    (Hos : current_os h = Ok os) :
  let argv := [ if String.eqb os "win" then "cipd.bat" else "cipd";
                "ensure"; "-root"; root; "-ensure-file"; "-" ] in
  let input := Some (package +:+ " " +:+ version) in
  let p := run_process w (trace s) argv None input in
  cipd h w root package version s
  = if returncode p =? 0
    then (Ok tt, extend s [Spawn argv None input])
    else (Raise (ValueError "cipd failed."),
          extend s [ Spawn argv None input;
                     Stdout (p_stdout p +:+ LF);
                     Stdout (p_stderr p +:+ LF) ]).
Proof.
  intros argv input p.
  unfold cipd, bind, lift, run. rewrite Hos. fold argv input p.
  destruct (returncode p =? 0); simpl; [reflexivity |].
  unfold extend; simpl. now rewrite <- !app_assoc.
Qed.

(** X18. On a linux host the build-graph generator is installed into
    buildtools/linux64 as the package gn/gn/linux-${arch}, at the version
    that the manifest query printed for the Mac pin
    src/buildtools/mac:gn/gn/mac-${arch}: the text the query printed is
    handed to the package installer as it is. With a target OS other than
    win nothing else is started. *)
Theorem gn_version_from_mac_pin
    (h : Host) (w : World) (args : Args) (s : state) (cpu : string)
    (Hos : current_os h = Ok "linux")
    (Htarget : String.eqb (target_os args) "win" = false)
    (Hquery : returncode
                (run_process w (trace s)
                   (getdep_args h "src/buildtools/mac:gn/gn/mac-${arch}" "DEPS")
                   None None) = 0) :
  let query := getdep_args h "src/buildtools/mac:gn/gn/mac-${arch}" "DEPS" in
  let version := p_stdout (run_process w (trace s) query None None) in
  let install := [ "cipd"; "ensure"; "-root"; "buildtools/linux64";
                   "-ensure-file"; "-" ] in
  let input := Some ("gn/gn/linux-${arch}" +:+ " " +:+ version) in
  let p := run_process w (trace s ++ [ Spawn query None None ]) install None
             input in
  install_host_tools h w args "linux" cpu s
  = if returncode p =? 0
    then (Ok tt, extend s [ Spawn query None None; Spawn install None input ])
    else (Raise (ValueError "cipd failed."),
          extend s [ Spawn query None None; Spawn install None input;
                     Stdout (p_stdout p +:+ LF);
                     Stdout (p_stderr p +:+ LF) ]).
Proof.
  cbv zeta. unfold install_host_tools. unfold bind at 1.
  rewrite read_var_from_deps_eq. cbv zeta.
  fold (getdep_args h "src/buildtools/mac:gn/gn/mac-${arch}" "DEPS").
  rewrite Hquery. simpl Z.eqb. cbv iota.
  change (String.eqb "linux" "linux") with true. cbv iota.
  unfold bind at 1.
  rewrite (cipd_eq h w _ "buildtools/linux64" "gn/gn/linux-${arch}" _ "linux" Hos).
  cbv zeta. change (String.eqb "linux" "win") with false. cbv iota.
  cbn [trace extend].
  destruct (returncode _ =? 0).
  - rewrite Htarget. simpl. unfold extend. simpl.
    now rewrite <- !app_assoc.
  - unfold extend. simpl. now rewrite <- !app_assoc.
Qed.

Lemma gn_version_from_mac_pin_witness :
  install_host_tools linux_x64 (steady 0 "git_revision:abc")
    (args_of linux_x64 (cli_of (Some "120.0.6099.5") None None) "x64" "linux")
    "linux" "x64" start
  = (Ok tt,
     extend start
       [ Spawn [ "/usr/bin/python3"; "third_party/depot_tools/gclient.py";
                 "getdep"; "--deps-file"; "DEPS"; "-r";
                 "src/buildtools/mac:gn/gn/mac-${arch}" ] None None;
         Spawn [ "cipd"; "ensure"; "-root"; "buildtools/linux64";
                 "-ensure-file"; "-" ] None
           (Some "gn/gn/linux-${arch} git_revision:abc") ]).
Proof.
  exact (gn_version_from_mac_pin linux_x64 (steady 0 "git_revision:abc")
           (args_of linux_x64 (cli_of (Some "120.0.6099.5") None None)
              "x64" "linux")
           start "x64" eq_refl eq_refl eq_refl).
Defined.
